(** * tgx: update dispatch and handler execution

    A shallow embedding of the dispatch section of [bot.go], of the
    registration functions of [message_handlers.go] and
    [callback_handlers.go], and of [Bot.EditMessageText].

    Go strings are byte strings; they are modelled by [string] (a list of
    [ascii]).  Go maps are [gmap string _]; a nil map is [None].  Handlers
    are opaque functions of the host application: they act on an external
    state [S] and either return an error value (possibly nil) or panic. *)

From Stdlib Require Import ZArith Ascii String.
From stdpp Require Import base option list gmap strings sorting.

Local Open Scope string_scope.
Local Open Scope Z_scope.
Local Open Scope list_scope.
Local Set Warnings "-register-all".

(** ** The [strings] package *)

Module strings.

(** [strings.HasPrefix(s, prefix)] *)
Fixpoint HasPrefix (s p : string) {struct p} : bool :=
  match p with
  | EmptyString => true
  | String c p' =>
      match s with
      | EmptyString => false
      | String d s' => Ascii.eqb c d && HasPrefix s' p'
      end
  end.

(** [strings.Split(s, sep)] for a separator of one byte: the pieces of [s]
    between the occurrences of [sep], in order.  The result is never empty;
    a string without separator gives the list with that one string. *)
Fixpoint Split (s : string) (sep : ascii) : list string :=
  match s with
  | EmptyString => [EmptyString]
  | String c s' =>
      if Ascii.eqb c sep then EmptyString :: Split s' sep
      else match Split s' sep with
           | piece :: pieces => String c piece :: pieces
           | [] => [String c EmptyString]
           end
  end.

(** [strings.Join(elems, sep)] *)
Fixpoint Join (elems : list string) (sep : string) : string :=
  match elems with
  | [] => EmptyString
  | [e] => e
  | e :: rest => e +:+ sep +:+ Join rest sep
  end.

End strings.

(** ** Event model (package [models]) *)

Module models.

(** Modelled from the spec: the [models] package is not among the source
    files.  Section 3 of the specification describes its records as inert
    data-transfer records: a message has a sender identity (user id,
    username), a chat identity, a message id and the content fields; the
    payloads are kept here by their file identifier.  A nil pointer or nil
    slice is [None]. *)

Record User := { Id : Z; Username : string }.
Record Chat := { ChatId : Z }.
Record PhotoSize := { photo_file_id : string }.
Record Video := { video_file_id : string }.
Record Voice := { voice_file_id : string }.
Record Document := { document_file_id : string }.
Record Animation := { animation_file_id : string }.
Record Sticker := { sticker_file_id : string }.
Record Audio := { audio_file_id : string }.
Record VideoNote := { video_note_file_id : string }.

Record Message := {
  MessageId : Z;
  From : User;
  MChat : Chat;
  Text : string;
  Photo : option (list PhotoSize);
  MVideo : option Video;
  MVoice : option Voice;
  MDocument : option Document;
  MAnimation : option Animation;
  MSticker : option Sticker;
  MAudio : option Audio;
  MVideoNote : option VideoNote
}.

Record CallbackQuery := {
  ID : string;
  CFrom : User;
  CMessage : option Message;
  Data : string
}.

End models.

(** ** Errors *)

(** The rendering of a panic value with [%v]. *)
Definition Fault := string.

(** An argument of a [fmt.Errorf] call of the dispatch section. *)
Inductive FmtArg :=
| FStr (s : string)
| FFault (r : Fault)
| FMessage (m : models.Message).

(** A Go [error] value that is not nil: a [*BotError] (numeric code,
    message, optional wrapped cause) or the result of [fmt.Errorf], kept as
    format string and arguments. *)
Inductive Error :=
| BotError (Code : Z) (Message : string) (Err : option Error)
| Errorf (format : string) (args : list FmtArg).

(** Modelled from the spec: [IsAPIError] is not among the source files.
    Sections 3 and 4.3 of the specification: an error record carries a
    numeric classification code, and the guard tests whether the error
    returned by the handler carries the code 403 or 429. *)
Definition IsAPIError (err : Error) (code : Z) : bool :=
  match err with
  | BotError c _ _ => Z.eqb c code
  | Errorf _ _ => false
  end.

Definition StatusBadRequest : Z := 400.
Definition StatusNotFound : Z := 404.
Definition StatusInternalServerError : Z := 500.

(** ** Logger calls *)

Inductive Level := Debug | Info | Warn | LError.

Inductive LogArg :=
| LStr (s : string)
| LInt (z : Z)
| LErr (e : Error)
| LFault (r : Fault).

(** ** Contexts *)

(** The per-dispatch context.  The back-reference [bot] of the Go struct
    is not a field here: the bot is an explicit argument of every function
    that uses it. *)
Record Context := {
  CtxText : string;
  UserID : Z;
  CtxUsername : string;
  CtxMessageId : Z;
  ChatID : Z;
  Args : list string;
  CtxPhoto : option (list models.PhotoSize);
  CtxVideo : option models.Video;
  CtxVoice : option models.Voice;
  CtxDocument : option models.Document;
  CtxAnimation : option models.Animation;
  CtxSticker : option models.Sticker;
  CtxAudio : option models.Audio;
  CtxVideoNote : option models.VideoNote
}.

Record CallbackContext := {
  QueryID : string;
  CbData : string;
  CbMessage : option models.Message;
  CbUserID : Z;
  CbUsername : string
}.

(** A value of an outbound parameter mapping ([map[string]interface{}]). *)
Inductive Value :=
| VInt (z : Z)
| VStr (s : string)
| VBool (b : bool).

(** What a call of an application function gives back to the dispatcher:
    it returns (an error or nil), or it panics. *)
Inductive Outcome (A : Type) :=
| Returned (a : A)
| Panicked (r : Fault).
Arguments Returned {A} a.
Arguments Panicked {A} r.

(** How a Go function body ends: it returns a value or unwinds with a
    panic. *)
Inductive Res (A : Type) :=
| Ret (a : A)
| Panic (r : Fault).
Arguments Ret {A} a.
Arguments Panic {A} r.

Definition nonempty (s : string) : bool := negb (String.eqb s "").

Definition notnil {A} (p : option A) : bool :=
  match p with
  | Some _ => true
  | None => false
  end.

(** Assignments to the fields of a [*Context]. *)
Definition set_Args (v : list string) (c : Context) : Context :=
  let (a1, a2, a3, a4, a5, _, a7, a8, a9, a10, a11, a12, a13, a14) := c in
  Build_Context a1 a2 a3 a4 a5 v a7 a8 a9 a10 a11 a12 a13 a14.
Definition set_Photo (v : option (list models.PhotoSize)) (c : Context) : Context :=
  let (a1, a2, a3, a4, a5, a6, _, a8, a9, a10, a11, a12, a13, a14) := c in
  Build_Context a1 a2 a3 a4 a5 a6 v a8 a9 a10 a11 a12 a13 a14.
Definition set_Video (v : option models.Video) (c : Context) : Context :=
  let (a1, a2, a3, a4, a5, a6, a7, _, a9, a10, a11, a12, a13, a14) := c in
  Build_Context a1 a2 a3 a4 a5 a6 a7 v a9 a10 a11 a12 a13 a14.
Definition set_Voice (v : option models.Voice) (c : Context) : Context :=
  let (a1, a2, a3, a4, a5, a6, a7, a8, _, a10, a11, a12, a13, a14) := c in
  Build_Context a1 a2 a3 a4 a5 a6 a7 a8 v a10 a11 a12 a13 a14.
Definition set_Document (v : option models.Document) (c : Context) : Context :=
  let (a1, a2, a3, a4, a5, a6, a7, a8, a9, _, a11, a12, a13, a14) := c in
  Build_Context a1 a2 a3 a4 a5 a6 a7 a8 a9 v a11 a12 a13 a14.
Definition set_Animation (v : option models.Animation) (c : Context) : Context :=
  let (a1, a2, a3, a4, a5, a6, a7, a8, a9, a10, _, a12, a13, a14) := c in
  Build_Context a1 a2 a3 a4 a5 a6 a7 a8 a9 a10 v a12 a13 a14.
Definition set_Sticker (v : option models.Sticker) (c : Context) : Context :=
  let (a1, a2, a3, a4, a5, a6, a7, a8, a9, a10, a11, _, a13, a14) := c in
  Build_Context a1 a2 a3 a4 a5 a6 a7 a8 a9 a10 a11 v a13 a14.
Definition set_Audio (v : option models.Audio) (c : Context) : Context :=
  let (a1, a2, a3, a4, a5, a6, a7, a8, a9, a10, a11, a12, _, a14) := c in
  Build_Context a1 a2 a3 a4 a5 a6 a7 a8 a9 a10 a11 a12 v a14.
Definition set_VideoNote (v : option models.VideoNote) (c : Context) : Context :=
  let (a1, a2, a3, a4, a5, a6, a7, a8, a9, a10, a11, a12, a13, _) := c in
  Build_Context a1 a2 a3 a4 a5 a6 a7 a8 a9 a10 a11 a12 a13 v.

(** [requests.go] *)
Record InlineKeyboardButton := { BtnText : string; CallbackData : string }.
Record InlineKeyboardMarkup := { InlineKeyboard : list (list InlineKeyboardButton) }.

Record EditMessageTextRequest := {
  ReqChatId : Z;
  ReqMessageId : Z;
  ReqText : string;
  ReqReplyMarkup : InlineKeyboardMarkup
}.

(** ** The dispatcher's world: state, trace and panics *)

Section Model.

Context {S : Type}.

(** [type Handler func(ctx *Context) error] and its siblings.  [S] is the
    state outside the dispatcher that application code reads and writes. *)
Definition Handler := Context -> S -> S * Outcome (option Error).
Definition callbackHandler := CallbackContext -> S -> S * Outcome (option Error).
Definition ErrorHandler := Context -> Error -> S -> S * Outcome unit.

(** What the dispatcher does that can be observed: logger calls, handler
    invocations, invocations of the fallback reporter, API requests. *)
Inductive Event :=
| EvLog (lvl : Level) (format : string) (args : list LogArg)
| EvHandler (h : Handler) (ctx : Context)
| EvCallback (h : callbackHandler) (ctx : CallbackContext)
| EvReport (eh : ErrorHandler) (ctx : Context) (err : Error)
| EvAPI (token method : string) (params : gmap string Value).

Record World := { app : S; trace : list Event }.

(** A Go function body: it transforms the world and returns a value or
    unwinds with a panic. *)
Definition M (A : Type) := World -> World * Res A.

Definition ret {A} (a : A) : M A := fun w => (w, Ret a).

Definition bind {A B} (m : M A) (k : A -> M B) : M B :=
  fun w => match m w with
           | (w', Ret a) => k a w'
           | (w', Panic r) => (w', Panic r)
           end.

Definition emit (e : Event) : M unit :=
  fun w => ({| app := app w; trace := trace w ++ [e] |}, Ret tt).

Definition log (lvl : Level) (format : string) (args : list LogArg) : M unit :=
  emit (EvLog lvl format args).

(** Running application code: the call is recorded, then the code acts on
    the external state. *)
Definition call {A} (e : Event) (f : S -> S * Outcome A) : M A :=
  fun w =>
    let (s', out) := f (app w) in
    ({| app := s'; trace := trace w ++ [e] |},
     match out with Returned a => Ret a | Panicked r => Panic r end).

(** [defer func() { if r := recover(); r != nil { onpanic } }()] around a
    body whose result is unnamed: when the body panics the deferred
    function runs, and if it returns the enclosing function returns the
    zero value of its result type; a panic of the deferred function itself
    goes on unwinding. *)
Definition recovering {A} (zero : A) (onpanic : Fault -> M unit) (body : M A) : M A :=
  fun w => match body w with
           | (w', Ret a) => (w', Ret a)
           | (w', Panic r) =>
               match onpanic r w' with
               | (w'', Ret _) => (w'', Ret zero)
               | (w'', Panic r') => (w'', Panic r')
               end
           end.

Notation "x <- c1 ;; c2" := (bind c1 (fun x => c2))
  (at level 100, c1 at next level, right associativity).
Notation "c1 ;; c2" := (bind c1 (fun _ => c2))
  (at level 100, right associativity).

(** ** The bot *)

Record Bot := {
  token : string;
  webhookURL : string;
  messageHandlers : option (gmap string Handler);
  commandHandler : option (gmap string Handler);
  callbackHandlers : option (gmap string callbackHandler);
  errorHandler : option ErrorHandler
}.

(** [m[k]] on a Go map; a nil map has no entry. *)
Definition map_get {V} (m : option (gmap string V)) (k : string) : option V :=
  match m with
  | Some m => m !! k
  | None => None
  end.

(** [bot.go], [NewBot]: the three maps are made and the default reporter
    is installed.  [defaultErrorHandler] logs the error and sends an apology
    through the context; what the sending does is outside the dispatcher, so
    the reporter is an argument here. *)
Definition NewBot (token webhookURL : string) (defaultErrorHandler : ErrorHandler) : Bot :=
  {| token := token;
     webhookURL := webhookURL;
     messageHandlers := Some ∅;
     commandHandler := Some ∅;
     callbackHandlers := Some ∅;
     errorHandler := Some defaultErrorHandler |}.

(** ** Registration *)

(** [message_handlers.go], [OnMessage]: a nil map is made first. *)
Definition OnMessage (messageType : string) (handler : Handler) (b : Bot) : Bot :=
  let m := match messageHandlers b with
           | None => ∅
           | Some m => m
           end in
  {| token := token b;
     webhookURL := webhookURL b;
     messageHandlers := Some (<[messageType := handler]> m);
     commandHandler := commandHandler b;
     callbackHandlers := callbackHandlers b;
     errorHandler := errorHandler b |}.

(** [callback_handlers.go], [OnCallback]: no nil check, and an assignment
    to an entry of a nil map panics. *)
Definition OnCallback (data : string) (handler : callbackHandler) (b : Bot) : Outcome Bot :=
  match callbackHandlers b with
  | None => Panicked "assignment to entry in nil map"
  | Some m =>
      Returned {| token := token b;
                  webhookURL := webhookURL b;
                  messageHandlers := messageHandlers b;
                  commandHandler := commandHandler b;
                  callbackHandlers := Some (<[data := handler]> m);
                  errorHandler := errorHandler b |}
  end.

(** ** Execution guard *)

(** [bot.go], [safeExecute]. *)
Definition safeExecute (b : Bot) (ctx : Context) (handler : Handler) : M (option Error) :=
  recovering None
    (fun r =>
       log LError "Panic in handler execution:" [LFault r] ;;
       let err := Errorf "handler panic: %v" [FFault r] in
       match errorHandler b with
       | Some eh => call (EvReport eh ctx err) (eh ctx err)
       | None => ret tt
       end)
    (err <- call (EvHandler handler ctx) (handler ctx) ;;
     match err with
     | Some err =>
         if IsAPIError err 403 then
           log Warn "Bot blocked by user: %d" [LInt (UserID ctx)] ;;
           ret (Some err)
         else if IsAPIError err 429 then
           log Info "Rate limited" [] ;;
           ret (Some err)
         else
           match errorHandler b with
           | Some eh => call (EvReport eh ctx err) (eh ctx err)
           | None => ret tt
           end ;;
           ret (Some err)
     | None => ret None
     end).

(** ** Command and content router *)

(** [l[i]] on a slice: out of range is a run-time panic. *)
Definition index (l : list string) (i : nat) : M string :=
  match l !! i with
  | Some x => ret x
  | None => fun w => (w, Panic "index out of range")
  end.

(** The [switch] of [handleMessageUpdate] with the [return nil] after it:
    the first case whose condition holds is run, and no other. *)
Definition dispatchContent (b : Bot) (ctx : Context) (message : models.Message)
  : M (option Error) :=
  if nonempty (models.Text message) then
    match map_get (messageHandlers b) "Text" with
    | Some handler => safeExecute b ctx handler
    | None => ret None
    end
  else if notnil (models.Photo message) then
    match map_get (messageHandlers b) "Photo" with
    | Some handler => safeExecute b (set_Photo (models.Photo message) ctx) handler
    | None => ret None
    end
  else if notnil (models.MVideo message) then
    match map_get (messageHandlers b) "Video" with
    | Some handler => safeExecute b (set_Video (models.MVideo message) ctx) handler
    | None => ret None
    end
  else if notnil (models.MVoice message) then
    match map_get (messageHandlers b) "Voice" with
    | Some handler => safeExecute b (set_Voice (models.MVoice message) ctx) handler
    | None => ret None
    end
  else if notnil (models.MDocument message) then
    match map_get (messageHandlers b) "Document" with
    | Some handler => safeExecute b (set_Document (models.MDocument message) ctx) handler
    | None => ret None
    end
  else if notnil (models.MAnimation message) then
    match map_get (messageHandlers b) "Animation" with
    | Some handler => safeExecute b (set_Animation (models.MAnimation message) ctx) handler
    | None => ret None
    end
  else if notnil (models.MSticker message) then
    match map_get (messageHandlers b) "Sticker" with
    | Some handler => safeExecute b (set_Sticker (models.MSticker message) ctx) handler
    | None => ret None
    end
  else if notnil (models.MAudio message) then
    match map_get (messageHandlers b) "Audio" with
    | Some handler => safeExecute b (set_Audio (models.MAudio message) ctx) handler
    | None => ret None
    end
  else if notnil (models.MVideoNote message) then
    match map_get (messageHandlers b) "VideoNote" with
    | Some handler => safeExecute b (set_VideoNote (models.MVideoNote message) ctx) handler
    | None => ret None
    end
  else
    ret (Some (BotError StatusBadRequest
      "Unsupported message type received. No handler is available for this message type."
      (Some (Errorf "no handler found for message type: %v" [FMessage message])))).

(** The branch of [handleMessageUpdate] for a text that starts with a
    slash. *)
Definition dispatchCommand (b : Bot) (ctx : Context) (message : models.Message)
  : M (option Error) :=
  let parts := strings.Split (models.Text message) " " in
  if Nat.ltb (length parts) 1 then
    log LError "Not a valid command" [] ;;
    ret (Some (BotError StatusInternalServerError "Failed to parse command"
                 (Some (Errorf "Failed to parse command" []))))
  else
    part0 <- index parts 0 ;;
    let command := strings.Split part0 "/" in
    if Nat.leb (length command) 1 then
      log LError "Not a valid command" [] ;;
      ret (Some (BotError StatusInternalServerError "Not a valid command"
                   (Some (Errorf "Failed to split parts" []))))
    else
      let ctx := if Nat.ltb 1 (length parts) then set_Args (drop 1 parts) ctx else ctx in
      log Debug "Received message: %s" [LStr (models.Text message)] ;;
      name <- index command 1 ;;
      log Debug "Parsed command: %s" [LStr name] ;;
      (if Nat.ltb 0 (length (Args ctx))
       then log Debug "Arguments: [%s]" [LStr (strings.Join (Args ctx) ", ")]
       else ret tt) ;;
      name <- index command 1 ;;
      match map_get (commandHandler b) name with
      | Some handler =>
          name <- index command 1 ;;
          log Info "Executing command: %s" [LStr name] ;;
          safeExecute b ctx handler
      | None =>
          name <- index command 1 ;;
          ret (Some (BotError StatusNotFound "Unknown command"
                       (Some (Errorf "command '%s' not found" [FStr name]))))
      end.

(** [bot.go], [handleMessageUpdate]. *)
Definition handleMessageUpdate (b : Bot) (message : option models.Message)
  : M (option Error) :=
  match message with
  | None => ret (Some (BotError StatusBadRequest "Empty message received" None))
  | Some message =>
      recovering None
        (fun r => log LError "Panic recovered in handleMessageUpdate: %v" [LFault r])
        (let ctx := {| CtxText := models.Text message;
                       UserID := models.Id (models.From message);
                       CtxUsername := models.Username (models.From message);
                       CtxMessageId := models.MessageId message;
                       ChatID := models.ChatId (models.MChat message);
                       Args := [];
                       CtxPhoto := None; CtxVideo := None; CtxVoice := None;
                       CtxDocument := None; CtxAnimation := None;
                       CtxSticker := None; CtxAudio := None;
                       CtxVideoNote := None |} in
         if strings.HasPrefix (models.Text message) "/"
         then dispatchCommand b ctx message
         else dispatchContent b ctx message)
  end.

(** ** Callback router *)

(** The [for data, handler := range b.callbackHandlers] loop and the two
    statements after it.  [iter] is the sequence of entries in the order in
    which [range] visits them; Go leaves that order unspecified. *)
Fixpoint rangeCallbacks (iter : list (string * callbackHandler))
    (ctx : CallbackContext) (cbData : string) : M (option Error) :=
  match iter with
  | [] =>
      log Warn "No callback handler found for data: %s" [LStr cbData] ;;
      ret None
  | (data, handler) :: rest =>
      if strings.HasPrefix cbData data then
        log Debug "callback handler called for prfix: %s" [LStr data] ;;
        err <- call (EvCallback handler ctx) (handler ctx) ;;
        match err with
        | Some err =>
            log LError "error in calling handler %w: " [LErr err] ;;
            ret (Some err)
        | None => ret None
        end
      else rangeCallbacks rest ctx cbData
  end.

(** [callback_handlers.go], [handleCallbackQuery]. *)
Definition handleCallbackQuery (b : Bot) (iter : list (string * callbackHandler))
    (cb : models.CallbackQuery) : M (option Error) :=
  let ctx := {| QueryID := models.ID cb;
                CbData := models.Data cb;
                CbMessage := models.CMessage cb;
                CbUserID := models.Id (models.CFrom cb);
                CbUsername := models.Username (models.CFrom cb) |} in
  match map_get (callbackHandlers b) (models.Data cb) with
  | Some handler =>
      log Debug "callback handler called" [] ;;
      err <- call (EvCallback handler ctx) (handler ctx) ;;
      match err with
      | Some err =>
          log LError "error in calling handler %w: " [LErr err] ;;
          ret (Some err)
      | None => ret None
      end
  | None => rangeCallbacks iter ctx (models.Data cb)
  end.

(** The entries of a Go map; [range] visits a permutation of them. *)
Definition entries {V} (m : option (gmap string V)) : list (string * V) :=
  match m with
  | Some m => map_to_list m
  | None => []
  end.

(** ** Outbound requests *)

Section Transport.

(** The parameter builder and the HTTP transport are not among the source
    files.  The builder is taken by its rule of omission ([Add] leaves out
    the values for which [omit] holds; the design notes of the
    specification describe it as dropping default values), the transport by
    what a request does to the outside state and gives back. *)
Variable omit : Value -> bool.
Variable transport : string -> string -> gmap string Value -> S -> S * Outcome (option Error).

Definition NewParamBuilder : gmap string Value := ∅.

Definition Add (key : string) (value : Value) (builder : gmap string Value)
  : gmap string Value :=
  if omit value then builder else <[key := value]> builder.

Definition Build (builder : gmap string Value) : gmap string Value := builder.

Definition makeAPIRequest (token method : string) (params : gmap string Value)
  : M (option Error) :=
  call (EvAPI token method params) (transport token method params).

(** [bot.go], [EditMessageText]. *)
Definition EditMessageText (b : Bot) (req : EditMessageTextRequest) : M (option Error) :=
  let builer := Add "message_id" (VInt (ReqMessageId req))
                  (Add "chat_id" (VInt (ReqChatId req)) NewParamBuilder) in
  makeAPIRequest (token b) "getMyShortDescription" (Build builer).

End Transport.

End Model.

Arguments Handler : clear implicits.
Arguments callbackHandler : clear implicits.
Arguments ErrorHandler : clear implicits.
Arguments Event : clear implicits.
Arguments World : clear implicits.
Arguments M : clear implicits.
Arguments Bot : clear implicits.

Notation "x <- c1 ;; c2" := (bind c1 (fun x => c2))
  (at level 100, c1 at next level, right associativity).
Notation "c1 ;; c2" := (bind c1 (fun _ => c2))
  (at level 100, right associativity).


(** ** Observations on a trace *)

Definition extend {S} (w : World S) (evs : list (Event S)) : World S :=
  {| app := app w; trace := trace w ++ evs |}.

Definition handler_calls {S} (t : list (Event S)) : list (Handler S * Context) :=
  omap (fun e => match e with EvHandler h c => Some (h, c) | _ => None end) t.

Definition callback_calls {S} (t : list (Event S))
  : list (callbackHandler S * CallbackContext) :=
  omap (fun e => match e with EvCallback h c => Some (h, c) | _ => None end) t.

Definition reports {S} (t : list (Event S)) : list (ErrorHandler S * Context * Error) :=
  omap (fun e => match e with EvReport eh c err => Some (eh, c, err) | _ => None end) t.

Definition api_calls {S} (t : list (Event S))
  : list (string * string * gmap string Value) :=
  omap (fun e => match e with EvAPI tok m p => Some (tok, m, p) | _ => None end) t.

(** ** The words of the specification *)

Fixpoint contains (c : ascii) (s : string) : bool :=
  match s with
  | EmptyString => false
  | String d s' => Ascii.eqb d c || contains c s'
  end.

(** White space: space, tab, line feed, vertical tab, form feed, carriage
    return. *)
Definition is_space (c : ascii) : bool :=
  let n := nat_of_ascii c in
  ((n =? 32) || (n =? 9) || (n =? 10) || (n =? 11) || (n =? 12) || (n =? 13))%nat.

Fixpoint has_space (s : string) : bool :=
  match s with
  | EmptyString => false
  | String c s' => is_space c || has_space s'
  end.

(** "The token after [/] and before the next [/] or whitespace", read on
    the text that follows the leading slash. *)
Fixpoint spec_token (s : string) : string :=
  match s with
  | EmptyString => EmptyString
  | String c s' =>
      if Ascii.eqb c "/" || is_space c then EmptyString
      else String c (spec_token s')
  end.

(** The content kinds in the priority order of the specification. *)
Inductive Tag :=
| TText | TPhoto | TVideo | TVoice | TDocument | TAnimation | TSticker
| TAudio | TVideoNote.

Definition priority : list Tag :=
  [TText; TPhoto; TVideo; TVoice; TDocument; TAnimation; TSticker; TAudio;
   TVideoNote].

Definition tag_name (t : Tag) : string :=
  match t with
  | TText => "Text" | TPhoto => "Photo" | TVideo => "Video"
  | TVoice => "Voice" | TDocument => "Document"
  | TAnimation => "Animation" | TSticker => "Sticker" | TAudio => "Audio"
  | TVideoNote => "VideoNote"
  end.

Definition is_populated (m : models.Message) (t : Tag) : bool :=
  match t with
  | TText => nonempty (models.Text m)
  | TPhoto => notnil (models.Photo m)
  | TVideo => notnil (models.MVideo m)
  | TVoice => notnil (models.MVoice m)
  | TDocument => notnil (models.MDocument m)
  | TAnimation => notnil (models.MAnimation m)
  | TSticker => notnil (models.MSticker m)
  | TAudio => notnil (models.MAudio m)
  | TVideoNote => notnil (models.MVideoNote m)
  end.

(** The populated content fields of a message, in priority order. *)
Definition populated (m : models.Message) : list Tag :=
  filter (fun t => is_populated m t = true) priority.

(** The context of a dispatch before any content field is set. *)
Definition base_context (m : models.Message) : Context :=
  {| CtxText := models.Text m;
     UserID := models.Id (models.From m);
     CtxUsername := models.Username (models.From m);
     CtxMessageId := models.MessageId m;
     ChatID := models.ChatId (models.MChat m);
     Args := [];
     CtxPhoto := None; CtxVideo := None; CtxVoice := None;
     CtxDocument := None; CtxAnimation := None;
     CtxSticker := None; CtxAudio := None;
     CtxVideoNote := None |}.

(** "The Context's corresponding field set": the field of the context that
    belongs to a tag holds the content of the message. *)
Definition with_field (t : Tag) (m : models.Message) (c : Context) : Context :=
  match t with
  | TText => c
  | TPhoto => set_Photo (models.Photo m) c
  | TVideo => set_Video (models.MVideo m) c
  | TVoice => set_Voice (models.MVoice m) c
  | TDocument => set_Document (models.MDocument m) c
  | TAnimation => set_Animation (models.MAnimation m) c
  | TSticker => set_Sticker (models.MSticker m) c
  | TAudio => set_Audio (models.MAudio m) c
  | TVideoNote => set_VideoNote (models.MVideoNote m) c
  end.

(** The field of a context that belongs to a tag holds the content of the
    message. *)
Definition ctx_has_field (t : Tag) (m : models.Message) (c : Context) : Prop :=
  match t with
  | TText => CtxText c = models.Text m
  | TPhoto => CtxPhoto c = models.Photo m
  | TVideo => CtxVideo c = models.MVideo m
  | TVoice => CtxVoice c = models.MVoice m
  | TDocument => CtxDocument c = models.MDocument m
  | TAnimation => CtxAnimation c = models.MAnimation m
  | TSticker => CtxSticker c = models.MSticker m
  | TAudio => CtxAudio c = models.MAudio m
  | TVideoNote => CtxVideoNote c = models.MVideoNote m
  end.

(** The context [handleCallbackQuery] makes for a query. *)
Definition callback_context (cb : models.CallbackQuery) : CallbackContext :=
  {| QueryID := models.ID cb;
     CbData := models.Data cb;
     CbMessage := models.CMessage cb;
     CbUserID := models.Id (models.CFrom cb);
     CbUsername := models.Username (models.CFrom cb) |}.

(** "The first key that is a prefix of the callback data", in the order of
    iteration. *)
Fixpoint first_prefix {V} (cbData : string) (iter : list (string * V))
  : option (string * V) :=
  match iter with
  | [] => None
  | (key, v) :: rest =>
      if strings.HasPrefix cbData key then Some (key, v)
      else first_prefix cbData rest
  end.

(** The errors the router reports. *)
Definition malformed_command : Error :=
  BotError StatusInternalServerError "Not a valid command"
    (Some (Errorf "Failed to split parts" [])).

Definition unknown_command (name : string) : Error :=
  BotError StatusNotFound "Unknown command"
    (Some (Errorf "command '%s' not found" [FStr name])).

Definition unsupported_message (m : models.Message) : Error :=
  BotError StatusBadRequest
    "Unsupported message type received. No handler is available for this message type."
    (Some (Errorf "no handler found for message type: %v" [FMessage m])).

(** The synthetic error the guard builds from a recovered panic. *)
Definition handler_panic (r : Fault) : Error :=
  Errorf "handler panic: %v" [FFault r].

(** The deferred function of [handleMessageUpdate]. *)
Definition update_recover {S} (r : Fault) : M S unit :=
  log LError "Panic recovered in handleMessageUpdate: %v" [LFault r].

(** Running one callback handler and passing on what it returns, after a
    debug line: the statements [handleCallbackQuery] has both at the exact
    match and at the prefix match. *)
Definition run_callback {S} (format : string) (args : list LogArg)
    (h : callbackHandler S) (ctx : CallbackContext) : M S (option Error) :=
  log Debug format args ;;
  err <- call (EvCallback h ctx) (h ctx) ;;
  match err with
  | Some err => log LError "error in calling handler %w: " [LErr err] ;; ret (Some err)
  | None => ret None
  end.

(** ** Three sentences of the specification, as they are worded *)

(** "When a handler raises a runtime fault under the Execution Guard, the
    guard propagates to its caller a non-nil synthetic error." *)
Definition panic_propagates : Prop :=
  forall (b : Bot nat) ctx h w s1 r,
    h ctx (app w) = (s1, Panicked r) ->
    exists e, snd (safeExecute b ctx h w) = Ret (Some e).

(** "On miss, fall through to the next content field": with no handler
    for the tag of the first populated field and a handler for the tag of
    the next populated one, that handler is dispatched. *)
Definition falls_through : Prop :=
  forall (b : Bot nat) msg w t1 t2 rest h,
    strings.HasPrefix (models.Text msg) "/" = false ->
    populated msg = t1 :: t2 :: rest ->
    map_get (messageHandlers b) (tag_name t1) = None ->
    map_get (messageHandlers b) (tag_name t2) = Some h ->
    handler_calls (trace (fst (handleMessageUpdate b (Some msg) w)))
    = handler_calls (trace w) ++ [(h, with_field t2 msg (base_context msg))].

(** "For all inbound text [/] with no further token, dispatch reports
    malformed-command and invokes no handler." *)
Definition slash_is_malformed : Prop :=
  forall (b : Bot nat) msg w,
    models.Text msg = "/" ->
    snd (handleMessageUpdate b (Some msg) w) = Ret (Some malformed_command) /\
    handler_calls (trace (fst (handleMessageUpdate b (Some msg) w)))
    = handler_calls (trace w).

(** ** Sample data *)

Module Samples.

Definition alice : models.User := {| models.Id := 7; models.Username := "alice" |}.
Definition room : models.Chat := {| models.ChatId := 42 |}.

Definition text_message (text : string) : models.Message :=
  {| models.MessageId := 1; models.From := alice; models.MChat := room;
     models.Text := text; models.Photo := None; models.MVideo := None;
     models.MVoice := None; models.MDocument := None;
     models.MAnimation := None; models.MSticker := None;
     models.MAudio := None; models.MVideoNote := None |}.

Definition a_photo : list models.PhotoSize := [{| models.photo_file_id := "p1" |}].

Definition photo_message (text : string) : models.Message :=
  {| models.MessageId := 1; models.From := alice; models.MChat := room;
     models.Text := text; models.Photo := Some a_photo; models.MVideo := None;
     models.MVoice := None; models.MDocument := None;
     models.MAnimation := None; models.MSticker := None;
     models.MAudio := None; models.MVideoNote := None |}.

(** The outside state counts what the application code did. *)
Definition succeed (n : nat) : Handler nat :=
  fun _ s => ((s + n)%nat, Returned None).
Definition fail_with (e : Error) : Handler nat :=
  fun _ s => (s, Returned (Some e)).
Definition crash (r : Fault) : Handler nat :=
  fun _ s => (s, Panicked r).
Definition apologise : ErrorHandler nat :=
  fun _ _ s => ((s + 1000)%nat, Returned tt).

Definition cb_succeed (n : nat) : callbackHandler nat :=
  fun _ s => ((s + n)%nat, Returned None).

Definition fresh : Bot nat := NewBot "token" "https://example.org/hook" apologise.

Definition with_commands (l : list (string * Handler nat)) (b : Bot nat) : Bot nat :=
  {| token := token b; webhookURL := webhookURL b;
     messageHandlers := messageHandlers b;
     commandHandler := Some (list_to_map l);
     callbackHandlers := callbackHandlers b;
     errorHandler := errorHandler b |}.

Definition with_callbacks (l : list (string * callbackHandler nat)) (b : Bot nat)
  : Bot nat :=
  {| token := token b; webhookURL := webhookURL b;
     messageHandlers := messageHandlers b;
     commandHandler := commandHandler b;
     callbackHandlers := Some (list_to_map l);
     errorHandler := errorHandler b |}.

Definition start : World nat := {| app := 0%nat; trace := [] |}.

Definition echo_bot : Bot nat := with_commands [("echo", succeed 1)] fresh.
Definition photo_bot : Bot nat := OnMessage "Photo" (succeed 1) fresh.
Definition shop_bot : Bot nat :=
  with_callbacks [("buy", cb_succeed 1); ("buy:", cb_succeed 2)] fresh.
Definition a_context : Context := base_context (text_message "hi").

Definition blocked : Error := BotError 403 "Forbidden: bot was blocked by the user" None.
Definition flooded : Error := BotError 429 "Too Many Requests" None.
Definition broken : Error := Errorf "database unavailable" [].

Definition query (data : string) : models.CallbackQuery :=
  {| models.ID := "q1"; models.CFrom := alice; models.CMessage := None;
     models.Data := data |}.

Definition tab : string := String (ascii_of_nat 9) EmptyString.

End Samples.

(** ** The webhook entry point *)

(** [models.Update], as [HandleWebhook] reads it: two pointers. *)
Record Update := {
  UpdMessage : option models.Message;
  UpdCallbackQuery : option models.CallbackQuery
}.

(** What [HandleWebhook] reads of a [*http.Request]: the method, and what
    [io.ReadAll(r.Body)] gives. *)
Record Request := {
  Method : string;
  ReadAll : Error + string
}.

(** A call on the [http.ResponseWriter]: [http.Error(w, msg, code)] or
    [w.WriteHeader(code)]. *)
Inductive HttpWrite :=
| HttpError (msg : string) (code : Z)
| WriteHeader (code : Z).

(** What a call of [HandleWebhook] has done to the request and to the
    response writer when it ends. *)
Record Response := {
  written : list HttpWrite;
  bodyClosed : bool
}.

Definition MethodPost : string := "POST".
Definition StatusMethodNotAllowed : Z := 405.
Definition StatusOK : Z := 200.

Definition newline : string := String (ascii_of_nat 10) EmptyString.

(** The format string ["Code : %d,\nMessage: %s,\nErr: %v"]. *)
Definition code_message_err : string :=
  "Code : %d," +:+ newline +:+ "Message: %s," +:+ newline +:+ "Err: %v".

Section Webhook.

Context {S : Type}.

(** [json.Unmarshal(body, &update)]: the decoder is not part of the
    repository. *)
Variable unmarshal : string -> Error + Update.

(** [bot.go], [HandleWebhook].  [iter] is the order in which the range
    loop of the callback router visits the registry.  The deferred
    [r.Body.Close()] is registered once the body has been read; the
    deferred recovery once the update has been decoded. *)
Definition HandleWebhook (b : Bot S) (iter : list (string * callbackHandler S))
    (r : Request) : M S Response :=
  if negb (String.eqb (Method r) MethodPost) then
    log LError "Invalid HTTP method: %s" [LStr (Method r)] ;;
    ret {| written := [HttpError "Only POST requests are allowed" StatusMethodNotAllowed];
           bodyClosed := false |}
  else
    match ReadAll r with
    | inl err =>
        log LError code_message_err
          [LInt StatusBadRequest; LStr "Failed to read request body"; LErr err] ;;
        ret {| written := [HttpError "Failed to read request body" StatusBadRequest];
               bodyClosed := false |}
    | inr body =>
        match unmarshal body with
        | inl err =>
            log LError code_message_err
              [LInt StatusBadRequest; LStr "Failed to decode body"; LErr err] ;;
            ret {| written := [HttpError "Failed to decode update" StatusBadRequest];
                   bodyClosed := true |}
        | inr update =>
            recovering {| written := []; bodyClosed := true |}
              (fun r => log LError "Panic recovered in update handler: %v" [LFault r])
              (match UpdMessage update with
               | Some message =>
                   err <- handleMessageUpdate b (Some message) ;;
                   match err with
                   | Some err => log LError "Error handling message update: %v" [LErr err]
                   | None => ret tt
                   end
               | None =>
                   match UpdCallbackQuery update with
                   | Some cb =>
                       err <- handleCallbackQuery b iter cb ;;
                       match err with
                       | Some err =>
                           log LError "Error handling callback query: %v" [LErr err]
                       | None => ret tt
                       end
                   | None =>
                       log Warn "Received update with no message or callback query" []
                   end
               end ;;
               ret {| written := [WriteHeader StatusOK]; bodyClosed := true |})
        end
    end.

End Webhook.

(** ** Outbound requests with options *)

(** A reply markup is an [interface{}] in the code: an inline keyboard or
    any other value, kept by its JSON text. *)
Inductive Markup :=
| MInline (m : InlineKeyboardMarkup)
| MOther (json : string).

(** A value of a [map[string]interface{}] payload. *)
Inductive Param :=
| PInt (z : Z)
| PStr (s : string)
| PBool (b : bool)
| PMarkup (m : Markup)
| PKeyboard (rows : list (list InlineKeyboardButton))
| PObj (m : gmap string Param).

(** How an outbound function ends: it returns an error of its own and
    makes no request, or it returns what [makeAPIRequest] (on the token of
    the bot) or [ctx.makeRequest] returns for one request. *)
Inductive Sent :=
| Rejected (err : Error)
| ViaBot (token method : string) (payload : gmap string Param)
| ViaContext (method : string) (payload : gmap string Param).

Definition nil_dereference : Fault :=
  "invalid memory address or nil pointer dereference".

(** [requests.go] *)
Definition HTML : string := "HTML".
Definition MarkdownV2 : string := "MarkdownV2".
(** [bot.go] *)
Definition ParseModeMarkdown : string := "MarkdownV2".
Definition ParseModeHTML : string := "HTML".

Record ReplyParam := { RpMessageId : Z; RpChatId : Z }.

Record SendMessageRequest := {
  SmChatId : Z;
  SmText : string;
  SmParseMode : string;
  SmReplyMarkup : option Markup;
  SmReplyParams : option ReplyParam
}.

Record ForwardMessageRequest := {
  FwChatId : Z;
  FwFromChatId : Z;
  FwMessageId : Z;
  FwDisableNotification : bool;
  FwProtectContent : bool
}.

Record AnswerCallbackQueryRequest := {
  AcCallbackQueryId : string;
  AcText : string;
  AcShowAlert : bool;
  AcURL : string;
  AcCacheTime : Z
}.

Record CallbackAnswerOptions := {
  CaText : string;
  CaShowAlert : bool;
  CaURL : string;
  CaCacheTime : Z
}.

Record EditMessageOptions := {
  EoParseMode : string;
  EoDisableWebPagePreview : bool;
  EoReplyMarkup : option InlineKeyboardMarkup
}.

Record ChatPermissions := {
  CanSendMessages : option bool;
  CanSendAudios : option bool;
  CanSendDocuments : option bool;
  CanSendPhotos : option bool;
  CanSendVideos : option bool;
  CanSendVideoNotes : option bool;
  CanSendVoiceNotes : option bool;
  CanSendPolls : option bool;
  CanSendOtherMessages : option bool;
  CanAddWebPagePreviews : option bool;
  CanChangeInfo : option bool;
  CanInviteUsers : option bool;
  CanPinMessages : option bool;
  CanManageTopics : option bool
}.

Record RestrictChatMember := {
  RcChatId : string;
  RcUserId : Z;
  RcPermissions : ChatPermissions;
  RcUseIndependentChatPermissions : bool;
  RcUntilDate : Z
}.

(** [p == ChatPermissions{}]: every pointer of the struct is nil. *)
Definition no_permissions (p : ChatPermissions) : bool :=
  let (a1, a2, a3, a4, a5, a6, a7, a8, a9, a10, a11, a12, a13, a14) := p in
  negb (notnil a1 || notnil a2 || notnil a3 || notnil a4 || notnil a5 ||
        notnil a6 || notnil a7 || notnil a8 || notnil a9 || notnil a10 ||
        notnil a11 || notnil a12 || notnil a13 || notnil a14).

(** [if cond { payload[key] = value }] *)
Definition set_if (cond : bool) (key : string) (value : Param)
    (payload : gmap string Param) : gmap string Param :=
  if cond then <[key := value]> payload else payload.

Definition parse_mode_error : Error :=
  BotError StatusBadRequest "Parse mode can be only 'MarkdownV2' or 'HTML'"
    (Some (Errorf "Parse mode can be only 'MarkdownV2' or 'HTML'" [])).

(** The [reply_parameters] entry that [SendMessageWithOpts] adds. *)
Definition add_reply_parameters (rp : option ReplyParam)
    (payload : gmap string Param) : gmap string Param :=
  match rp with
  | Some rp =>
      if negb (Z.eqb (RpMessageId rp) 0) then
        let replyParam : gmap string Param := {["message_id" := PInt (RpMessageId rp)]} in
        let replyParam :=
          set_if (negb (Z.eqb (RpChatId rp) 0)) "chat_id" (PInt (RpChatId rp)) replyParam in
        <["reply_parameters" := PObj replyParam]> payload
      else payload
  | None => payload
  end.

Definition add_reply_markup (m : option Markup) (payload : gmap string Param)
  : gmap string Param :=
  match m with
  | Some m => <["reply_markup" := PMarkup m]> payload
  | None => payload
  end.

Section Outbound.

Context {S : Type}.

(** [bot.go], [SendMessage]. *)
Definition SendMessage (b : Bot S) (chatID : Z) (text : string) : Sent :=
  ViaBot (token b) "sendMessage"
    (<["text" := PStr text]> {["chat_id" := PInt chatID]}).

(** [bot.go], [SendMessageWithOpts]; a nil request is dereferenced. *)
Definition SendMessageWithOpts (b : Bot S) (req : option SendMessageRequest)
  : Outcome Sent :=
  match req with
  | None => Panicked nil_dereference
  | Some req =>
      let payload : gmap string Param :=
        <["text" := PStr (SmText req)]> {["chat_id" := PInt (SmChatId req)]} in
      if nonempty (SmParseMode req) then
        if negb (String.eqb (SmParseMode req) ParseModeHTML)
           && negb (String.eqb (SmParseMode req) ParseModeMarkdown)
        then Returned (Rejected parse_mode_error)
        else
          let payload := <["parse_mode" := PStr (SmParseMode req)]> payload in
          let payload := add_reply_markup (SmReplyMarkup req) payload in
          let payload := add_reply_parameters (SmReplyParams req) payload in
          Returned (ViaBot (token b) "sendMessage" payload)
      else
        let payload := add_reply_markup (SmReplyMarkup req) payload in
        let payload := add_reply_parameters (SmReplyParams req) payload in
        Returned (ViaBot (token b) "sendMessage" payload)
  end.

(** [bot.go], [ForwardMessage]. *)
Definition ForwardMessage (b : Bot S) (chatId fromChatId messageId : Z) : Sent :=
  ViaBot (token b) "forwardMessage"
    (<["message_id" := PInt messageId]>
       (<["from_chat_id" := PInt fromChatId]> {["chat_id" := PInt chatId]})).

(** [bot.go], [ForwardMessageWithOpts]. *)
Definition ForwardMessageWithOpts (b : Bot S) (req : option ForwardMessageRequest)
  : Outcome Sent :=
  match req with
  | None => Panicked nil_dereference
  | Some req =>
      let payload : gmap string Param :=
        <["message_id" := PInt (FwMessageId req)]>
          (<["from_chat_id" := PInt (FwFromChatId req)]>
             {["chat_id" := PInt (FwChatId req)]}) in
      let payload :=
        set_if (FwDisableNotification req) "disable_notification"
          (PBool (FwDisableNotification req)) payload in
      let payload :=
        set_if (FwProtectContent req) "protect_content"
          (PBool (FwProtectContent req)) payload in
      Returned (ViaBot (token b) "forwardMessage" payload)
  end.

(** [bot.go], [answerCallbackQuery]. *)
Definition answerCallbackQuery (b : Bot S) (req : option AnswerCallbackQueryRequest)
  : Outcome Sent :=
  match req with
  | None => Panicked nil_dereference
  | Some req =>
      let params : gmap string Param :=
        {["callback_query_id" := PStr (AcCallbackQueryId req)]} in
      let params := set_if (nonempty (AcText req)) "text" (PStr (AcText req)) params in
      let params := set_if (AcShowAlert req) "show_alert" (PBool (AcShowAlert req)) params in
      let params := set_if (nonempty (AcURL req)) "url" (PStr (AcURL req)) params in
      let params :=
        set_if (negb (Z.eqb (AcCacheTime req) 0)) "cache_time"
          (PInt (AcCacheTime req)) params in
      Returned (ViaBot (token b) "answerCallbackQuery" params)
  end.

(** [bot.go], [RestrictChatMember], the method. *)
Definition RestrictChatMemberCall (b : Bot S) (req : option RestrictChatMember)
  : Outcome Sent :=
  match req with
  | None => Panicked nil_dereference
  | Some req =>
      if String.eqb (RcChatId req) "" then
        Returned (Rejected (Errorf "chat_id is required" []))
      else if Z.eqb (RcUserId req) 0 then
        Returned (Rejected (Errorf "user_id is required" []))
      else if no_permissions (RcPermissions req) then
        Returned (Rejected
          (Errorf "permissions are required to restrict a chat member" []))
      else
        Returned (ViaBot (token b) "restrictChatMember"
          (<["until_date" := PInt (RcUntilDate req)]>
             (<["use_independent_chat_permissions" :=
                  PBool (RcUseIndependentChatPermissions req)]>
                (<["user_id" := PInt (RcUserId req)]>
                   {["chat_id" := PStr (RcChatId req)]}))))
  end.

(** [message_handlers.go], [Context.Reply]. *)
Definition Reply (ctx : Context) (text : string) : Sent :=
  ViaContext "sendMessage"
    (<["reply_with_parameters" := PInt (CtxMessageId ctx)]>
       (<["text" := PStr text]> {["chat_id" := PInt (ChatID ctx)]})).

(** [message_handlers.go], [Context.ReplyWithOpts]. *)
Definition ReplyWithOpts (ctx : Context) (req : option SendMessageRequest)
  : Outcome Sent :=
  match req with
  | None => Panicked nil_dereference
  | Some req =>
      let payload : gmap string Param :=
        <["text" := PStr (SmText req)]> {["chat_id" := PInt (ChatID ctx)]} in
      let payload :=
        set_if (String.eqb (SmParseMode req) HTML || String.eqb (SmParseMode req) MarkdownV2)
          "parse_mode" (PStr (SmParseMode req)) payload in
      let payload := add_reply_markup (SmReplyMarkup req) payload in
      let payload :=
        match SmReplyParams req with
        | Some rp =>
            if negb (Z.eqb (RpMessageId rp) 0) then
              let replyParam : gmap string Param :=
                {["message_id" := PInt (CtxMessageId ctx)]} in
              let replyParam :=
                set_if (negb (Z.eqb (RpChatId rp) 0)) "chat_id" (PInt (ChatID ctx))
                  replyParam in
              <["reply_parameters" := PObj replyParam]> payload
            else payload
        | None => payload
        end in
      Returned (ViaContext "sendMessage" payload)
  end.

(** [message_handlers.go], [Context.ReplyWithInlineKeyboard]. *)
Definition ReplyWithInlineKeyboard (ctx : Context) (text : string)
    (buttons : list (list InlineKeyboardButton)) : Sent :=
  ViaContext "sendMessage"
    (<["reply_markup" := PObj {["inline_keyboard" := PKeyboard buttons]}]>
       (<["text" := PStr text]> {["chat_id" := PInt (ChatID ctx)]})).

(** [callback_handlers.go], [CallbackContext.AnswerCallback]. *)
Definition AnswerCallback (ctx : CallbackContext) (opts : option CallbackAnswerOptions)
  : M S Sent :=
  log Info "Answering callback query" [] ;;
  let payload : gmap string Param := {["callback_query_id" := PStr (QueryID ctx)]} in
  let payload :=
    match opts with
    | Some opts =>
        let payload := set_if (nonempty (CaText opts)) "text" (PStr (CaText opts)) payload in
        let payload :=
          set_if (CaShowAlert opts) "show_alert" (PBool (CaShowAlert opts)) payload in
        let payload := set_if (nonempty (CaURL opts)) "url" (PStr (CaURL opts)) payload in
        set_if (Z.ltb 0 (CaCacheTime opts)) "cache_time" (PInt (CaCacheTime opts)) payload
    | None => payload
    end in
  ret (ViaContext "answerCallbackQuery" payload).

(** [callback_handlers.go], [CallbackContext.Alert]. *)
Definition Alert (ctx : CallbackContext) (text : string) : M S Sent :=
  AnswerCallback ctx
    (Some {| CaText := text; CaShowAlert := true; CaURL := ""; CaCacheTime := 0 |}).

(** [callback_handlers.go], [CallbackContext.EditMessage]; [ctx.Message]
    is dereferenced. *)
Definition EditMessage (ctx : CallbackContext) (newText : string)
    (opts : option EditMessageOptions) : Outcome Sent :=
  match CbMessage ctx with
  | None => Panicked nil_dereference
  | Some message =>
      let payload : gmap string Param :=
        <["text" := PStr newText]>
          (<["message_id" := PInt (models.MessageId message)]>
             {["chat_id" := PInt (models.ChatId (models.MChat message))]}) in
      let payload :=
        match opts with
        | Some opts =>
            let payload :=
              set_if (String.eqb (EoParseMode opts) HTML
                      || String.eqb (EoParseMode opts) MarkdownV2)
                "parse_mode" (PStr (EoParseMode opts)) payload in
            let payload :=
              set_if (EoDisableWebPagePreview opts) "disable_web_page_preview"
                (PBool (EoDisableWebPagePreview opts)) payload in
            match EoReplyMarkup opts with
            | Some m => <["reply_markup" := PMarkup (MInline m)]> payload
            | None => payload
            end
        | None => payload
        end in
      Returned (ViaContext "editMessageText" payload)
  end.

(** [callback_handlers.go], [CallbackContext.DeleteMessage]. *)
Definition DeleteMessage (ctx : CallbackContext) : Outcome Sent :=
  match CbMessage ctx with
  | None => Panicked nil_dereference
  | Some message =>
      Returned (ViaContext "deleteMessage"
        (<["message_id" := PInt (models.MessageId message)]>
           {["chat_id" := PInt (models.ChatId (models.MChat message))]}))
  end.

End Outbound.

(** The characters of a string before the first slash or space: the
    command name, read on the text after the leading slash. *)
Fixpoint command_name (rest : string) : string :=
  match rest with
  | EmptyString => EmptyString
  | String c rest' =>
      if Ascii.eqb c "/" || Ascii.eqb c " " then EmptyString
      else String c (command_name rest')
  end.

(** The characters of a string before the first occurrence of [stop]. *)
Fixpoint before (stop : ascii) (s : string) : string :=
  match s with
  | EmptyString => EmptyString
  | String c s' => if Ascii.eqb c stop then EmptyString else String c (before stop s')
  end.

(** ** More sample data *)

Module WebSamples.

Import Samples.

(** A decoder for three bodies. *)
Definition decode (body : string) : Error + Update :=
  if String.eqb body "message" then
    inr {| UpdMessage := Some (text_message "/echo hi");
           UpdCallbackQuery := Some (query "buy") |}
  else if String.eqb body "callback" then
    inr {| UpdMessage := None; UpdCallbackQuery := Some (query "buy") |}
  else inl (Errorf "invalid character" []).

Definition post (body : string) : Request :=
  {| Method := "POST"; ReadAll := inr body |}.

Definition get : Request := {| Method := "GET"; ReadAll := inr "" |}.

Definition cb_crash (r : Fault) : callbackHandler nat :=
  fun _ s => (s, Panicked r).

Definition crash_shop : Bot nat := with_callbacks [("buy", cb_crash "sold out")] fresh.

(** A reporter that panics on the first error it sees and returns on the
    synthetic one. *)
Definition touchy : ErrorHandler nat :=
  fun _ err s =>
    match err with
    | Errorf "handler panic: %v" _ => ((s + 1)%nat, Returned tt)
    | _ => (s, Panicked "reporter down")
    end.

Definition touchy_bot : Bot nat := NewBot "token" "https://example.org/hook" touchy.

Definition a_request : SendMessageRequest :=
  {| SmChatId := 5; SmText := "hello"; SmParseMode := "Markdown";
     SmReplyMarkup := None;
     SmReplyParams := Some {| RpMessageId := 9; RpChatId := 0 |} |}.

End WebSamples.

(** ** Proof steps *)

(** Unfolding the operations of [M] down to pairs. *)
Ltac run :=
  unfold safeExecute, recovering, bind, log, emit, call, ret, update_recover,
    extend; simpl.

(** Projections of a trace that was extended at its end. *)
Ltac traces :=
  unfold handler_calls, callback_calls, reports, api_calls;
  rewrite ?omap_app; simpl; rewrite ?app_nil_r, <- ?app_assoc; simpl.

(** ** Facts about [strings.Split] *)

Section SplitFacts.

Example Split_fields : strings.Split "a b  c" " " = ["a"; "b"; ""; "c"].
Proof. reflexivity. Qed.

Example Split_empty : strings.Split "" " " = [""].
Proof. reflexivity. Qed.

Example Split_slash : strings.Split "/" "/" = [""; ""].
Proof. reflexivity. Qed.

Example Split_path : strings.Split "/a/b" "/" = [""; "a"; "b"].
Proof. reflexivity. Qed.

Lemma Split_not_nil s sep : strings.Split s sep <> [].
Proof.
  destruct s as [|c s]; simpl; [discriminate|].
  destruct (Ascii.eqb c sep); [discriminate|].
  destruct (strings.Split s sep); discriminate.
Qed.

Lemma Split_sep_first s sep :
  strings.Split (String sep s) sep = EmptyString :: strings.Split s sep.
Proof. simpl. by rewrite Ascii.eqb_refl. Qed.

Lemma Split_other_first c s sep :
  Ascii.eqb c sep = false ->
  exists piece pieces,
    strings.Split s sep = piece :: pieces /\
    strings.Split (String c s) sep = String c piece :: pieces.
Proof.
  intros Hc. simpl. rewrite Hc.
  destruct (strings.Split s sep) as [|piece pieces] eqn:E.
  - by apply Split_not_nil in E.
  - by exists piece, pieces.
Qed.

Lemma Split_no_sep s sep : contains sep s = false -> strings.Split s sep = [s].
Proof.
  induction s as [|c s IH]; simpl; [done|].
  intros [Hc Hs]%orb_false_elim. rewrite Hc, (IH Hs). done.
Qed.

Lemma Split_app_sep s t sep :
  contains sep s = false ->
  strings.Split (s +:+ String sep t) sep = s :: strings.Split t sep.
Proof.
  induction s as [|c s IH]; intros H.
  - apply Split_sep_first.
  - simpl in H. apply orb_false_elim in H as [Hc Hs].
    simpl. rewrite Hc, (IH Hs). done.
Qed.

End SplitFacts.

(** ** Facts about the guard *)

Section GuardFacts.

Context {S : Type}.
Implicit Types (b : Bot S) (w : World S) (h : Handler S) (ctx : Context).

(** The guard runs the handler once, whatever the handler does. *)
Lemma safeExecute_handler_calls b ctx h w :
  handler_calls (trace (fst (safeExecute b ctx h w)))
  = handler_calls (trace w) ++ [(h, ctx)].
Proof.
  run. destruct (h ctx (app w)) as [s1 [[e|]|r]]; simpl.
  - destruct (IsAPIError e 403); simpl; [by traces|].
    destruct (IsAPIError e 429); simpl; [by traces|].
    destruct (errorHandler b) as [eh|]; simpl; [|by traces].
    destruct (eh ctx e s1) as [s2 [[]|r]]; simpl; [by traces|].
    destruct (eh ctx _ s2) as [s3 [[]|r']]; simpl; by traces.
  - by traces.
  - destruct (errorHandler b) as [eh|]; simpl; [|by traces].
    destruct (eh ctx _ s1) as [s2 [[]|r']]; simpl; by traces.
Qed.

(** The deferred function of [handleMessageUpdate] only logs. *)
Lemma update_recover_handler_calls {A} (zero : A) (body : M S A) w :
  handler_calls (trace (fst (recovering zero update_recover body w)))
  = handler_calls (trace (fst (body w))).
Proof.
  run. destruct (body w) as [w1 [a|r]]; simpl; [done|]. by traces.
Qed.

End GuardFacts.

(** ** The command router *)

Section CommandRouter.

Context {S : Type}.
Implicit Types (b : Bot S) (w : World S) (h : Handler S) (msg : models.Message).

Lemma has_space_contains s : has_space s = false -> contains " " s = false.
Proof.
  induction s as [|c s IH]; simpl; [done|].
  intros [Hc Hs]%orb_false_elim. rewrite (IH Hs), orb_false_r.
  destruct (Ascii.eqb c " ") eqn:E; [|done].
  apply Ascii.eqb_eq in E. subst c. discriminate.
Qed.

Lemma spec_token_stop s t :
  contains "/" s = false -> has_space s = false ->
  spec_token (s +:+ String " " t) = s.
Proof.
  induction s as [|c s IH]; [intros _ _; reflexivity|]. simpl.
  intros [Hc Hs]%orb_false_elim [Hc' Hs']%orb_false_elim.
  rewrite Hc, Hc'. simpl. by rewrite IH.
Qed.

(** A text that starts with a slash always yields a command name: the
    first piece of the text has a second piece at the slash. *)
Lemma command_always_parsed text :
  strings.HasPrefix text "/" = true ->
  exists part0 args name rest,
    strings.Split text " " = part0 :: args /\
    strings.Split part0 "/" = EmptyString :: name :: rest.
Proof.
  destruct text as [|c text]; cbn [strings.HasPrefix]; [done|].
  destruct (Ascii.eqb "/" c) eqn:E; [|done]. intros _.
  apply Ascii.eqb_eq in E. subst c.
  destruct (Split_other_first "/" text " " eq_refl) as (piece & pieces & _ & ->).
  destruct (strings.Split piece "/") as [|name rest] eqn:E.
  { by apply Split_not_nil in E. }
  exists (String "/" piece), pieces, name, rest. split; [done|].
  by rewrite Split_sep_first, E.
Qed.

(** What [dispatchCommand] does once the pieces are known. *)
Lemma dispatchCommand_parsed b ctx msg w part0 args name rest :
  strings.Split (models.Text msg) " " = part0 :: args ->
  strings.Split part0 "/" = EmptyString :: name :: rest ->
  let ctx' := match args with [] => ctx | _ => set_Args args ctx end in
  let w' := extend w
    ([EvLog Debug "Received message: %s" [LStr (models.Text msg)];
      EvLog Debug "Parsed command: %s" [LStr name]] ++
     match Args ctx' with
     | [] => []
     | _ => [EvLog Debug "Arguments: [%s]" [LStr (strings.Join (Args ctx') ", ")]]
     end) in
  dispatchCommand b ctx msg w =
    match map_get (commandHandler b) name with
    | Some handler =>
        safeExecute b ctx' handler
          (extend w' [EvLog Info "Executing command: %s" [LStr name]])
    | None => (w', Ret (Some (unknown_command name)))
    end.
Proof.
  intros Hparts Hcommand. unfold dispatchCommand. rewrite Hparts. simpl.
  unfold index at 1. simpl. unfold bind at 1, ret at 1.
  rewrite Hcommand. simpl.
  unfold bind, log, emit, index, ret, extend, unknown_command; simpl.
  destruct args as [|a args]; simpl.
  - destruct (Args ctx) eqn:EA; simpl;
      destruct (map_get (commandHandler b) name); simpl;
      rewrite <- ?app_assoc; simpl; done.
  - assert (Args (set_Args (a :: args) ctx) = a :: args) as -> by by destruct ctx.
    simpl. destruct (map_get (commandHandler b) name); simpl;
      rewrite <- ?app_assoc; simpl; done.
Qed.

Lemma recovering_at {A} (zero : A) f (body body' : M S A) w w' :
  body w = body' w' -> recovering zero f body w = recovering zero f body' w'.
Proof. unfold recovering. by intros ->. Qed.

Lemma handleMessageUpdate_command b msg w :
  strings.HasPrefix (models.Text msg) "/" = true ->
  handleMessageUpdate b (Some msg) w
  = recovering None update_recover (dispatchCommand b (base_context msg) msg) w.
Proof. intros H. unfold handleMessageUpdate. by rewrite H. Qed.

Lemma handleMessageUpdate_content b msg w :
  strings.HasPrefix (models.Text msg) "/" = false ->
  handleMessageUpdate b (Some msg) w
  = recovering None update_recover (dispatchContent b (base_context msg) msg) w.
Proof. intros H. unfold handleMessageUpdate. by rewrite H. Qed.

Lemma Split_command_text C a1 a2 :
  contains " " C = false -> contains " " a1 = false -> contains " " a2 = false ->
  strings.Split ("/" +:+ C +:+ " " +:+ a1 +:+ " " +:+ a2) " "
  = [String "/" C; a1; a2].
Proof.
  intros HC H1 H2.
  change ("/" +:+ C +:+ " " +:+ a1 +:+ " " +:+ a2)
    with (String "/" C +:+ String " " (a1 +:+ String " " a2)).
  rewrite Split_app_sep by (simpl; by rewrite HC).
  rewrite Split_app_sep by done. by rewrite Split_no_sep.
Qed.

(** C1.  For a command name [C] (a token without slash and white space)
    registered with handler [h], and the text [/C arg1 arg2] whose
    arguments hold no space, the router parses the name [C], which is the
    token of the specification, attaches the argument list [[arg1; arg2]]
    to the context and runs [h] on that context through the guard, once. *)
Theorem command_dispatch b msg w (C arg1 arg2 : string) h :
  contains "/" C = false -> has_space C = false ->
  contains " " arg1 = false -> contains " " arg2 = false ->
  models.Text msg = "/" +:+ C +:+ " " +:+ arg1 +:+ " " +:+ arg2 ->
  map_get (commandHandler b) C = Some h ->
  let ctx := set_Args [arg1; arg2] (base_context msg) in
  let w' := extend w
    [EvLog Debug "Received message: %s" [LStr (models.Text msg)];
     EvLog Debug "Parsed command: %s" [LStr C];
     EvLog Debug "Arguments: [%s]" [LStr (arg1 +:+ ", " +:+ arg2)];
     EvLog Info "Executing command: %s" [LStr C]] in
  handleMessageUpdate b (Some msg) w
    = recovering None update_recover (safeExecute b ctx h) w' /\
  handler_calls (trace (fst (handleMessageUpdate b (Some msg) w)))
    = handler_calls (trace w) ++ [(h, ctx)] /\
  Args ctx = [arg1; arg2] /\
  spec_token (C +:+ " " +:+ arg1 +:+ " " +:+ arg2) = C.
Proof.
  intros Hslash Hspace H1 H2 Htext Hreg ctx w'.
  assert (contains " " C = false) as HC by by apply has_space_contains.
  assert (handleMessageUpdate b (Some msg) w
          = recovering None update_recover (safeExecute b ctx h) w') as Hrun.
  { rewrite handleMessageUpdate_command by by rewrite Htext.
    apply recovering_at.
    rewrite (dispatchCommand_parsed b _ msg w (String "/" C) [arg1; arg2] C []).
    - rewrite Hreg. unfold w', extend. simpl. by rewrite <- app_assoc.
    - rewrite Htext. by apply Split_command_text.
    - by rewrite Split_sep_first, Split_no_sep. }
  split; [done|]. split; [|split; [done|by apply spec_token_stop]].
  rewrite Hrun, update_recover_handler_calls, safeExecute_handler_calls.
  unfold w', extend, handler_calls. simpl. rewrite omap_app. simpl.
  by rewrite app_nil_r.
Qed.

End CommandRouter.

(** ** The content router *)

Section ContentRouter.

Context {S : Type}.
Implicit Types (b : Bot S) (w : World S) (h : Handler S) (msg : models.Message).

Lemma populated_cons msg t l :
  filter (fun t => is_populated msg t = true) (t :: l)
  = if is_populated msg t
    then t :: filter (fun t => is_populated msg t = true) l
    else filter (fun t => is_populated msg t = true) l.
Proof.
  rewrite filter_cons. destruct (is_populated msg t); by case_decide.
Qed.

(** The [switch] dispatches on the first populated field in the priority
    order, and on nothing else. *)
Lemma dispatchContent_first b ctx msg w :
  dispatchContent b ctx msg w =
    match populated msg with
    | [] => (w, Ret (Some (unsupported_message msg)))
    | tag :: _ =>
        match map_get (messageHandlers b) (tag_name tag) with
        | Some h => safeExecute b (with_field tag msg ctx) h w
        | None => (w, Ret None)
        end
    end.
Proof.
  unfold dispatchContent, populated, priority.
  repeat (rewrite populated_cons; cbn [is_populated];
          match goal with
          | |- context [if ?c then _ else _] =>
              destruct c eqn:?; cbn [with_field tag_name];
              [by destruct (map_get _ _)|]
          end).
  done.
Qed.

Lemma recovering_ret {A} (zero : A) f (body : M S A) w w' a :
  body w = (w', Ret a) -> recovering zero f body w = (w', Ret a).
Proof. unfold recovering. by intros ->. Qed.

Lemma with_field_sets tag msg : ctx_has_field tag msg (with_field tag msg (base_context msg)).
Proof. by destruct tag. Qed.

(** C8.  A message that is not a command is dispatched on its first
    populated content field in the priority order (its only one when
    exactly one is populated): the handler registered for the tag of that
    field runs once through the guard on a context whose corresponding
    field is set; without a handler for that tag nothing runs and nil is
    returned; without any populated field the unsupported-message error is
    returned and nothing runs. *)
Theorem content_dispatch b msg w :
  strings.HasPrefix (models.Text msg) "/" = false ->
  match populated msg with
  | [] =>
      handleMessageUpdate b (Some msg) w = (w, Ret (Some (unsupported_message msg)))
  | tag :: _ =>
      match map_get (messageHandlers b) (tag_name tag) with
      | Some h =>
          let ctx := with_field tag msg (base_context msg) in
          handleMessageUpdate b (Some msg) w
            = recovering None update_recover (safeExecute b ctx h) w /\
          handler_calls (trace (fst (handleMessageUpdate b (Some msg) w)))
            = handler_calls (trace w) ++ [(h, ctx)] /\
          ctx_has_field tag msg ctx
      | None => handleMessageUpdate b (Some msg) w = (w, Ret None)
      end
  end.
Proof.
  intros Hcmd. rewrite handleMessageUpdate_content by done.
  pose proof (dispatchContent_first b (base_context msg) msg w) as Hd.
  destruct (populated msg) as [|tag rest].
  - by apply recovering_ret.
  - destruct (map_get (messageHandlers b) (tag_name tag)) as [h|].
    + intros ctx. split; [by apply recovering_at|].
      split; [|apply with_field_sets].
      rewrite (recovering_at _ _ _ (safeExecute b ctx h) w w Hd).
      by rewrite update_recover_handler_calls, safeExecute_handler_calls.
    + by apply recovering_ret.
Qed.

(** C7, as the code has it.  The router stops at the first populated
    content field: when no handler is registered for its tag, no handler
    runs and nil is returned, whatever is registered for the fields that
    come after it. *)
Theorem content_no_fall_through b msg w tag rest :
  strings.HasPrefix (models.Text msg) "/" = false ->
  populated msg = tag :: rest ->
  map_get (messageHandlers b) (tag_name tag) = None ->
  handleMessageUpdate b (Some msg) w = (w, Ret None) /\
  handler_calls (trace (fst (handleMessageUpdate b (Some msg) w)))
    = handler_calls (trace w).
Proof.
  intros Hcmd Hpop Hreg.
  assert (handleMessageUpdate b (Some msg) w = (w, Ret None)) as Hrun.
  { rewrite handleMessageUpdate_content by done. apply recovering_ret.
    by rewrite dispatchContent_first, Hpop, Hreg. }
  by rewrite Hrun.
Qed.

End ContentRouter.

(** ** The execution guard *)

Section ExecutionGuard.

Context {S : Type}.
Implicit Types (b : Bot S) (w : World S) (h : Handler S) (ctx : Context).

(** [handleMessageUpdate] never unwinds: its deferred function only logs. *)
Lemma handleMessageUpdate_returns b message w :
  exists v, snd (handleMessageUpdate b message w) = Ret v.
Proof.
  destruct message as [msg|]; [|by eexists].
  unfold handleMessageUpdate, recovering.
  match goal with |- context [match ?body w with _ => _ end] =>
    destruct (body w) as [w1 [v|r]] end; simpl; by eexists.
Qed.

(** C2.  When the handler returns an error [e]: if [e] carries the code
    403 or 429 the fallback reporter is not run and [e] is returned; for
    any other error the registered reporter is run exactly once, with the
    context and [e], and [e] is returned. *)
Theorem guard_classifies b ctx h w s1 e :
  h ctx (app w) = (s1, Returned (Some e)) ->
  let res := safeExecute b ctx h w in
  if IsAPIError e 403 || IsAPIError e 429 then
    snd res = Ret (Some e) /\ reports (trace (fst res)) = reports (trace w)
  else
    forall eh s2,
      errorHandler b = Some eh ->
      eh ctx e s1 = (s2, Returned tt) ->
      snd res = Ret (Some e) /\
      reports (trace (fst res)) = reports (trace w) ++ [(eh, ctx, e)].
Proof.
  intros Hh. run. rewrite Hh. simpl.
  destruct (IsAPIError e 403); simpl; [by traces|].
  destruct (IsAPIError e 429); simpl; [by traces|].
  intros eh s2 -> Heh. simpl. rewrite Heh. simpl. by traces.
Qed.

(** C3.  When the handler panics, the panic does not leave the guard: the
    registered reporter is run exactly once, with the synthetic error
    made from the fault, the guard returns, and so does the dispatch
    call. *)
Theorem guard_contains_panic b ctx h w s1 r eh s2 :
  h ctx (app w) = (s1, Panicked r) ->
  errorHandler b = Some eh ->
  eh ctx (handler_panic r) s1 = (s2, Returned tt) ->
  let res := safeExecute b ctx h w in
  (exists v, snd res = Ret v) /\
  reports (trace (fst res)) = reports (trace w) ++ [(eh, ctx, handler_panic r)] /\
  handler_calls (trace (fst res)) = handler_calls (trace w) ++ [(h, ctx)] /\
  (forall message w0, exists v, snd (handleMessageUpdate b message w0) = Ret v).
Proof.
  intros Hh Hb Heh res. split; [|split; [|split]].
  - subst res. run. rewrite Hh. simpl. rewrite Hb. simpl.
    unfold handler_panic in Heh. rewrite Heh. simpl. by eexists.
  - subst res. run. rewrite Hh. simpl. rewrite Hb. simpl.
    unfold handler_panic in Heh. rewrite Heh. simpl. by traces.
  - apply safeExecute_handler_calls.
  - intros. apply handleMessageUpdate_returns.
Qed.

(** C6, as the code has it.  When the handler panics, the synthetic error
    made from the fault is handed to the registered reporter and to nobody
    else: the guard never returns an error to its caller, and it returns
    nil whenever the reporter returns (or none is registered). *)
Theorem guard_panic_returns_nil b ctx h w s1 r :
  h ctx (app w) = (s1, Panicked r) ->
  let res := safeExecute b ctx h w in
  (forall e, snd res <> Ret (Some e)) /\
  match errorHandler b with
  | Some eh =>
      reports (trace (fst res)) = reports (trace w) ++ [(eh, ctx, handler_panic r)] /\
      (forall s2, eh ctx (handler_panic r) s1 = (s2, Returned tt) ->
                  snd res = Ret None)
  | None => snd res = Ret None /\ reports (trace (fst res)) = reports (trace w)
  end.
Proof.
  intros Hh res. subst res. run. rewrite Hh. simpl.
  destruct (errorHandler b) as [eh|]; simpl.
  - unfold handler_panic.
    destruct (eh ctx _ s1) as [s2 [[]|r']] eqn:Heh; simpl.
    + split; [done|]. split; [by traces|done].
    + split; [done|]. split; [by traces|]. intros s3 [=].
  - split; [done|]. split; [done|by traces].
Qed.

End ExecutionGuard.

(** ** The callback router *)

Section CallbackRouter.

Context {S : Type}.
Implicit Types (b : Bot S) (w : World S) (h : callbackHandler S).
Implicit Types (iter : list (string * callbackHandler S)).

Lemma run_callback_calls format args h ctx w :
  callback_calls (trace (fst (run_callback format args h ctx w)))
  = callback_calls (trace w) ++ [(h, ctx)].
Proof.
  unfold run_callback, bind, emit, call, log, ret. simpl.
  destruct (h ctx (app w)) as [s1 [[e|]|r]]; simpl; unfold emit; simpl; by traces.
Qed.

Lemma rangeCallbacks_first iter ctx cbData w :
  rangeCallbacks iter ctx cbData w =
    match first_prefix cbData iter with
    | Some (key, h) =>
        run_callback "callback handler called for prfix: %s" [LStr key] h ctx w
    | None =>
        (extend w [EvLog Warn "No callback handler found for data: %s" [LStr cbData]],
         Ret None)
    end.
Proof.
  induction iter as [|[key h] iter IH]; simpl; [done|].
  by destruct (strings.HasPrefix cbData key).
Qed.

Lemma first_prefix_Some {V} cbData (l : list (string * V)) key v :
  first_prefix cbData l = Some (key, v) ->
  (key, v) ∈ l /\ strings.HasPrefix cbData key = true.
Proof.
  induction l as [|[k x] l IH]; simpl; [done|].
  destruct (strings.HasPrefix cbData k) eqn:E.
  - intros [= -> ->]. split; [left|done].
  - intros [Hin Hp]%IH. split; [by right|done].
Qed.

Lemma first_prefix_None {V} cbData (l : list (string * V)) key v :
  first_prefix cbData l = None ->
  (key, v) ∈ l -> strings.HasPrefix cbData key = false.
Proof.
  induction l as [|[k x] l IH]; simpl; [by intros _ ?%elem_of_nil|].
  destruct (strings.HasPrefix cbData k) eqn:E; [done|].
  intros Hnone [[= -> ->]|Hin]%elem_of_cons; [done|by apply IH].
Qed.

Lemma entries_lookup {V} (m : option (gmap string V)) key v :
  (key, v) ∈ entries m <-> map_get m key = Some v.
Proof.
  destruct m as [m|]; simpl; [apply elem_of_map_to_list|].
  split; [by intros ?%elem_of_nil|done].
Qed.

(** C4.  For a callback query and any order [iter] in which the range
    loop visits the registered entries, at most one callback handler is
    run.  When the data is a registered key, the handler of that key runs,
    whatever other keys are prefixes of the data.  Otherwise the handler of
    the first key of the iteration that is a prefix of the data runs; and
    when no registered key is a prefix of the data, a warning is logged and
    nil is returned. *)
Theorem callback_dispatch b iter cb w :
  iter ≡ₚ entries (callbackHandlers b) ->
  let ctx := callback_context cb in
  let cbData := models.Data cb in
  let res := handleCallbackQuery b iter cb w in
  exists calls,
    callback_calls (trace (fst res)) = callback_calls (trace w) ++ calls /\
    (length calls <= 1)%nat /\
    match map_get (callbackHandlers b) cbData with
    | Some h => calls = [(h, ctx)]
    | None =>
        match first_prefix cbData iter with
        | Some (key, h) =>
            calls = [(h, ctx)] /\
            map_get (callbackHandlers b) key = Some h /\
            strings.HasPrefix cbData key = true
        | None =>
            calls = [] /\
            res = (extend w [EvLog Warn "No callback handler found for data: %s"
                               [LStr cbData]], Ret None) /\
            (forall key h, map_get (callbackHandlers b) key = Some h ->
                           strings.HasPrefix cbData key = false)
        end
    end.
Proof.
  intros Hperm ctx cbData res. subst res. unfold handleCallbackQuery.
  fold (callback_context cb) ctx cbData.
  destruct (map_get (callbackHandlers b) cbData) as [h|].
  - exists [(h, ctx)]. split; [|by split].
    apply (run_callback_calls "callback handler called" [] h ctx w).
  - rewrite rangeCallbacks_first.
    destruct (first_prefix cbData iter) as [[key h]|] eqn:Hfirst.
    + exists [(h, ctx)]. split; [apply run_callback_calls|]. split; [done|].
      apply first_prefix_Some in Hfirst as [Hin Hp].
      split; [done|]. split; [|done].
      apply entries_lookup. by rewrite <- Hperm.
    + exists []. split; [simpl; by traces|]. split; [simpl; lia|].
      split; [done|]. split; [done|].
      intros key h Hreg. apply (first_prefix_None _ iter key h Hfirst).
      rewrite Hperm. by apply entries_lookup.
Qed.

End CallbackRouter.

(** ** The registries *)

Section Registry.

Context {S : Type}.
Implicit Types (b : Bot S).

(** C9.  In the message registry and in the callback registry (once its
    map has been made, as [NewBot] does), registering [h1] and then [h2]
    under one key succeeds, leaves the bot as if only [h2] had been
    registered, and a lookup of the key gives [h2]; a registry holds each
    key once. *)
Theorem last_registration_wins b key (h1 h2 : Handler S) (c1 c2 : callbackHandler S) :
  let b2 := OnMessage key h2 (OnMessage key h1 b) in
  map_get (messageHandlers b2) key = Some h2 /\
  b2 = OnMessage key h2 b /\
  NoDup (entries (messageHandlers b2)).*1 /\
  (forall m, callbackHandlers b = Some m ->
     exists b1 b2',
       OnCallback key c1 b = Returned b1 /\
       OnCallback key c2 b1 = Returned b2' /\
       map_get (callbackHandlers b2') key = Some c2 /\
       OnCallback key c2 b = Returned b2' /\
       NoDup (entries (callbackHandlers b2')).*1).
Proof.
  intros b2. subst b2. unfold OnMessage. simpl.
  split; [apply lookup_insert_eq|]. split; [by rewrite insert_insert_eq|].
  split; [apply NoDup_fst_map_to_list|].
  intros m Hm. unfold OnCallback. rewrite Hm. simpl.
  eexists _, _. split; [done|]. split; [done|]. simpl.
  split; [apply lookup_insert_eq|]. split; [by rewrite insert_insert_eq|].
  apply NoDup_fst_map_to_list.
Qed.

End Registry.

(** ** Outbound requests *)

Section Requests.

Context {S : Type}.
Variable omit : Value -> bool.
Variable transport : string -> string -> gmap string Value -> S -> S * Outcome (option Error).
Implicit Types (b : Bot S) (w : World S) (req : EditMessageTextRequest).

Lemma built_params (chat mid : Z) key v :
  Add omit "message_id" (VInt mid) (Add omit "chat_id" (VInt chat) NewParamBuilder)
    !! key = Some v ->
  (key = "chat_id" /\ v = VInt chat) \/ (key = "message_id" /\ v = VInt mid).
Proof.
  unfold Add, NewParamBuilder.
  destruct (omit (VInt chat)), (omit (VInt mid));
    rewrite ?lookup_insert_Some, lookup_empty;
    intuition (subst; auto; congruence).
Qed.

Lemma built_params_absent (chat mid : Z) key :
  key <> "chat_id" -> key <> "message_id" ->
  Add omit "message_id" (VInt mid) (Add omit "chat_id" (VInt chat) NewParamBuilder)
    !! key = None.
Proof.
  intros H1 H2. apply eq_None_not_Some. intros [v Hv].
  apply built_params in Hv. intuition congruence.
Qed.

(** C10.  [Bot.EditMessageText] makes exactly one request; its method
    name is [getMyShortDescription], which is not [editMessageText]; its
    parameters hold nothing but the chat id under [chat_id] and the message
    id under [message_id] (each present unless the builder leaves it out);
    the text and the reply markup of the request have no part in it. *)
Theorem edit_message_text_request b req w :
  let res := EditMessageText omit transport b req w in
  exists params,
    api_calls (trace (fst res))
      = api_calls (trace w) ++ [(token b, "getMyShortDescription", params)] /\
    "getMyShortDescription" <> "editMessageText" /\
    dom params ⊆ ({["chat_id"; "message_id"]} : gset string) /\
    (forall key v, params !! key = Some v ->
       (key = "chat_id" /\ v = VInt (ReqChatId req)) \/
       (key = "message_id" /\ v = VInt (ReqMessageId req))) /\
    params !! "text" = None /\
    params !! "reply_markup" = None /\
    (omit (VInt (ReqChatId req)) = false ->
       params !! "chat_id" = Some (VInt (ReqChatId req))) /\
    (omit (VInt (ReqMessageId req)) = false ->
       params !! "message_id" = Some (VInt (ReqMessageId req))) /\
    (forall text markup,
       EditMessageText omit transport b
         {| ReqChatId := ReqChatId req; ReqMessageId := ReqMessageId req;
            ReqText := text; ReqReplyMarkup := markup |} w = res).
Proof.
  intros res. subst res. unfold EditMessageText, makeAPIRequest, Build, call.
  simpl. eexists. split.
  { destruct (transport _ _ _ _) as [s1 out]. simpl.
    unfold api_calls. rewrite omap_app. simpl. done. }
  split; [done|]. split.
  { intros key [v Hv]%elem_of_dom. apply built_params in Hv.
    apply elem_of_union. rewrite !elem_of_singleton. intuition auto. }
  split; [apply built_params|].
  split; [by apply built_params_absent|].
  split; [by apply built_params_absent|].
  split; [|split; [|done]].
  - intros Hc. unfold Add. rewrite Hc.
    destruct (omit (VInt (ReqMessageId req))).
    + apply lookup_insert_eq.
    + rewrite lookup_insert_ne by done. apply lookup_insert_eq.
  - intros Hm. unfold Add. rewrite Hm. apply lookup_insert_eq.
Qed.

End Requests.

(** ** Worked instances *)

Section Instances.

Import Samples.

(** The whole run of a dispatch, computed. *)
Example echo_runs :
  handleMessageUpdate echo_bot (Some (text_message "/echo hello world")) start
  = ({| app := 1%nat;
        trace :=
          [EvLog Debug "Received message: %s" [LStr "/echo hello world"];
           EvLog Debug "Parsed command: %s" [LStr "echo"];
           EvLog Debug "Arguments: [%s]" [LStr "hello, world"];
           EvLog Info "Executing command: %s" [LStr "echo"];
           EvHandler (succeed 1)
             (set_Args ["hello"; "world"]
                (base_context (text_message "/echo hello world")))] |},
     Ret None).
Proof. vm_compute. reflexivity. Qed.

Example crash_runs :
  safeExecute fresh a_context (crash "boom") start
  = ({| app := 1000%nat;
        trace :=
          [EvHandler (crash "boom") a_context;
           EvLog LError "Panic in handler execution:" [LFault "boom"];
           EvReport apologise a_context (handler_panic "boom")] |},
     Ret None).
Proof. vm_compute. reflexivity. Qed.

Lemma command_dispatch_witness :
  let msg := text_message "/echo hello world" in
  handler_calls (trace (fst (handleMessageUpdate echo_bot (Some msg) start)))
  = [(succeed 1, set_Args ["hello"; "world"] (base_context msg))].
Proof.
  intros msg.
  exact (proj1 (proj2 (command_dispatch echo_bot msg start "echo" "hello" "world"
                         (succeed 1) eq_refl eq_refl eq_refl eq_refl eq_refl eq_refl))).
Defined.

Lemma guard_classifies_witness :
  (let res := safeExecute fresh a_context (fail_with blocked) start in
   snd res = Ret (Some blocked) /\ reports (trace (fst res)) = []) /\
  (let res := safeExecute fresh a_context (fail_with flooded) start in
   snd res = Ret (Some flooded) /\ reports (trace (fst res)) = []) /\
  (let res := safeExecute fresh a_context (fail_with broken) start in
   snd res = Ret (Some broken) /\
   reports (trace (fst res)) = [(apologise, a_context, broken)]).
Proof.
  split; [|split].
  - exact (guard_classifies fresh a_context (fail_with blocked) start 0%nat blocked
             eq_refl).
  - exact (guard_classifies fresh a_context (fail_with flooded) start 0%nat flooded
             eq_refl).
  - exact (guard_classifies fresh a_context (fail_with broken) start 0%nat broken
             eq_refl apologise 1000%nat eq_refl eq_refl).
Defined.

Lemma guard_contains_panic_witness :
  let res := safeExecute fresh a_context (crash "boom") start in
  (exists v, snd res = Ret v) /\
  reports (trace (fst res)) = [(apologise, a_context, handler_panic "boom")].
Proof.
  pose proof (guard_contains_panic fresh a_context (crash "boom") start 0%nat "boom"
                apologise 1000%nat eq_refl eq_refl eq_refl) as H.
  exact (conj (proj1 H) (proj1 (proj2 H))).
Defined.

Lemma guard_panic_returns_nil_witness :
  let res := safeExecute fresh a_context (crash "boom") start in
  (forall e, snd res <> Ret (Some e)) /\
  reports (trace (fst res)) = [(apologise, a_context, handler_panic "boom")].
Proof.
  pose proof (guard_panic_returns_nil fresh a_context (crash "boom") start 0%nat
                "boom" eq_refl) as H.
  exact (conj (proj1 H) (proj1 (proj2 H))).
Defined.

(** C6, as worded, fails: after a panic of the handler the guard of a
    fresh bot returns nil. *)
Lemma panic_propagates_refuted : ~ panic_propagates.
Proof.
  intros H.
  destruct (H fresh a_context (crash "boom") start 0%nat "boom" eq_refl) as [e He].
  discriminate He.
Qed.

Lemma content_dispatch_witness :
  let msg := photo_message "" in
  handler_calls (trace (fst (handleMessageUpdate photo_bot (Some msg) start)))
  = [(succeed 1, set_Photo (Some a_photo) (base_context msg))].
Proof.
  intros msg.
  exact (proj1 (proj2 (content_dispatch photo_bot msg start eq_refl))).
Defined.

Lemma content_no_fall_through_witness :
  handleMessageUpdate photo_bot (Some (photo_message "hello")) start
  = (start, Ret None).
Proof.
  exact (proj1 (content_no_fall_through photo_bot (photo_message "hello") start
                  TText [TPhoto] eq_refl eq_refl eq_refl)).
Defined.

(** C7, as worded, fails: a message with a text and a photo, on a bot
    with a handler for photos only, runs no handler. *)
Lemma falls_through_refuted : ~ falls_through.
Proof.
  intros H.
  specialize (H photo_bot (photo_message "hello") start TText TPhoto [] (succeed 1)
                eq_refl eq_refl eq_refl eq_refl).
  vm_compute in H. discriminate H.
Qed.

Lemma callback_dispatch_witness :
  let res := handleCallbackQuery shop_bot (entries (callbackHandlers shop_bot))
               (query "buy:42") start in
  exists calls,
    callback_calls (trace (fst res)) = calls /\ (length calls <= 1)%nat.
Proof.
  destruct (callback_dispatch shop_bot (entries (callbackHandlers shop_bot))
              (query "buy:42") start (reflexivity _)) as (calls & Hcalls & Hlen & _).
  exists calls. split; [exact Hcalls|exact Hlen].
Defined.

(** With an exact match the handler of the exact key runs although the
    key [buy] is a prefix of the data as well. *)
Example callback_exact_match :
  callback_calls (trace (fst (handleCallbackQuery shop_bot
                                (entries (callbackHandlers shop_bot))
                                (query "buy:") start)))
  = [(cb_succeed 2, callback_context (query "buy:"))].
Proof.
  vm_compute. reflexivity.
Qed.

Lemma last_registration_wins_witness :
  map_get (messageHandlers (OnMessage "Text" (succeed 2)
                              (OnMessage "Text" (succeed 1) fresh))) "Text"
  = Some (succeed 2) /\
  exists b1 b2,
    OnCallback "buy" (cb_succeed 1) fresh = Returned b1 /\
    OnCallback "buy" (cb_succeed 2) b1 = Returned b2 /\
    map_get (callbackHandlers b2) "buy" = Some (cb_succeed 2).
Proof.
  pose proof (last_registration_wins fresh "Text" (succeed 1) (succeed 2)
                (cb_succeed 1) (cb_succeed 2)) as (Hm & _).
  split; [exact Hm|].
  pose proof (last_registration_wins fresh "buy" (succeed 1) (succeed 2)
                (cb_succeed 1) (cb_succeed 2)) as (_ & _ & _ & Hc).
  destruct (Hc ∅ eq_refl) as (b1 & b2 & H1 & H2 & H3 & _).
  by exists b1, b2.
Defined.

(** C5.  On the text [/] the code does not take its malformed-command
    branch: it parses the empty command name, logs it, and on a bot without
    a handler for the empty name returns the unknown-command error, which
    is another error than the malformed-command one; the sentence of the
    specification fails. *)
Theorem slash_reports_unknown_command :
  handleMessageUpdate fresh (Some (text_message "/")) start
  = (extend start [EvLog Debug "Received message: %s" [LStr "/"];
                   EvLog Debug "Parsed command: %s" [LStr ""]],
     Ret (Some (unknown_command ""))) /\
  unknown_command "" <> malformed_command /\
  ~ slash_is_malformed.
Proof.
  assert (handleMessageUpdate fresh (Some (text_message "/")) start
          = (extend start [EvLog Debug "Received message: %s" [LStr "/"];
                           EvLog Debug "Parsed command: %s" [LStr ""]],
             Ret (Some (unknown_command "")))) as Hrun.
  { rewrite handleMessageUpdate_command by done. apply recovering_ret.
    by rewrite (dispatchCommand_parsed fresh _ (text_message "/") start
                  "/" [] "" [] eq_refl eq_refl). }
  split; [done|]. split; [done|].
  intros H. destruct (H fresh (text_message "/") start eq_refl) as [Hm _].
  rewrite Hrun in Hm. discriminate Hm.
Qed.

(** On the text [/] a handler registered under the empty name is run. *)
Example slash_runs_empty_name_handler :
  handler_calls (trace (fst (handleMessageUpdate
                               (with_commands [("", succeed 1)] fresh)
                               (Some (text_message "/")) start)))
  = [(succeed 1, base_context (text_message "/"))].
Proof. vm_compute. reflexivity. Qed.

(** Only the space separates: a tab after the name belongs to the name. *)
Example tab_is_part_of_the_name :
  handleMessageUpdate echo_bot (Some (text_message ("/echo" +:+ tab +:+ "x"))) start
  = (extend start
       [EvLog Debug "Received message: %s" [LStr ("/echo" +:+ tab +:+ "x")];
        EvLog Debug "Parsed command: %s" [LStr ("echo" +:+ tab +:+ "x")]],
     Ret (Some (unknown_command ("echo" +:+ tab +:+ "x")))).
Proof.
  rewrite handleMessageUpdate_command by done. apply recovering_ret.
  by rewrite (dispatchCommand_parsed echo_bot _
                (text_message ("/echo" +:+ tab +:+ "x")) start
                ("/echo" +:+ tab +:+ "x") [] ("echo" +:+ tab +:+ "x") []
                eq_refl eq_refl).
Qed.

(** The name is looked up as it is written: another case, or a bot
    suffix, gives another name. *)
Example name_is_case_sensitive :
  snd (handleMessageUpdate echo_bot (Some (text_message "/Echo hello")) start)
  = Ret (Some (unknown_command "Echo")) /\
  snd (handleMessageUpdate echo_bot (Some (text_message "/echo@tgx_bot hello")) start)
  = Ret (Some (unknown_command "echo@tgx_bot")).
Proof.
  split.
  - rewrite handleMessageUpdate_command by done.
    erewrite recovering_ret; [done|].
    by rewrite (dispatchCommand_parsed echo_bot _ (text_message "/Echo hello") start
                  "/Echo" ["hello"] "Echo" [] eq_refl eq_refl).
  - rewrite handleMessageUpdate_command by done.
    erewrite recovering_ret; [done|].
    by rewrite (dispatchCommand_parsed echo_bot _
                  (text_message "/echo@tgx_bot hello") start
                  "/echo@tgx_bot" ["hello"] "echo@tgx_bot" [] eq_refl eq_refl).
Qed.

End Instances.

(** ** The callback router and the webhook entry point *)

Section WebhookFacts.

Context {S : Type}.
Variable unmarshal : string -> Error + Update.
Implicit Types (b : Bot S) (w : World S) (req : Request).
Implicit Types (iter : list (string * callbackHandler S)).

(** What one callback handler run leaves behind: the handler decides the
    result, and nothing but log lines and the call is added to the trace. *)
Lemma run_callback_outcome format args (h : callbackHandler S) ctx w s1 out :
  h ctx (app w) = (s1, out) ->
  let res := run_callback format args h ctx w in
  snd res = match out with Returned e => Ret e | Panicked r => Panic r end /\
  app (fst res) = s1 /\
  reports (trace (fst res)) = reports (trace w) /\
  handler_calls (trace (fst res)) = handler_calls (trace w).
Proof.
  intros Hh. unfold run_callback, bind, emit, call, log, ret. simpl.
  rewrite Hh. destruct out as [[e|]|r]; simpl; unfold emit; simpl;
    repeat split; by traces.
Qed.

Lemma rangeCallbacks_quiet iter ctx cbData w :
  reports (trace (fst (rangeCallbacks iter ctx cbData w))) = reports (trace w) /\
  handler_calls (trace (fst (rangeCallbacks iter ctx cbData w)))
  = handler_calls (trace w).
Proof.
  rewrite rangeCallbacks_first.
  destruct (first_prefix cbData iter) as [[key h]|].
  - destruct (h ctx (app w)) as [s1 out] eqn:Hh.
    by destruct (run_callback_outcome "callback handler called for prfix: %s"
                   [LStr key] h ctx w s1 out Hh) as (_ & _ & ? & ?).
  - simpl. split; by traces.
Qed.

(** X1.  The callback router does not guard its handlers: it never runs
    the fallback reporter nor a message handler, and with an exact match it
    ends as the handler ends, an error returned as it is and a panic left
    to unwind. *)
Theorem callback_router_unguarded b iter cb w :
  let ctx := callback_context cb in
  let res := handleCallbackQuery b iter cb w in
  reports (trace (fst res)) = reports (trace w) /\
  handler_calls (trace (fst res)) = handler_calls (trace w) /\
  (forall h s1 out,
     map_get (callbackHandlers b) (models.Data cb) = Some h ->
     h ctx (app w) = (s1, out) ->
     snd res = match out with Returned e => Ret e | Panicked r => Panic r end /\
     app (fst res) = s1).
Proof.
  intros ctx res. subst res. unfold handleCallbackQuery.
  fold (callback_context cb) ctx.
  destruct (map_get (callbackHandlers b) (models.Data cb)) as [h|].
  - destruct (h ctx (app w)) as [s1 out] eqn:Hh.
    destruct (run_callback_outcome "callback handler called" [] h ctx w s1 out Hh)
      as (Hres & Happ & Hrep & Hcalls).
    split; [exact Hrep|]. split; [exact Hcalls|].
    intros h' s1' out' [= <-] Hh'. rewrite Hh in Hh'. injection Hh' as <- <-.
    by split.
  - destruct (rangeCallbacks_quiet iter ctx (models.Data cb) w) as [Hrep Hcalls].
    split; [exact Hrep|]. split; [exact Hcalls|]. by intros h s1 out [=].
Qed.

(** A computation that only appends events of one kind to the trace. *)
Definition appends (P : Event S -> Prop) {A} (m : M S A) : Prop :=
  forall w, exists evs, trace (fst (m w)) = trace w ++ evs /\ Forall P evs.

Lemma appends_ret P {A} (a : A) : appends P (ret a).
Proof. intros w. exists []. simpl. by rewrite app_nil_r. Qed.

Lemma appends_emit (P : Event S -> Prop) e : P e -> appends P (emit e).
Proof. intros He w. exists [e]. simpl. split; [done|]. by constructor. Qed.

Lemma appends_log (P : Event S -> Prop) lvl format args :
  P (EvLog lvl format args) -> appends P (log lvl format args).
Proof. apply appends_emit. Qed.

Lemma appends_call (P : Event S -> Prop) {A} e (f : S -> S * Outcome A) :
  P e -> appends P (call e f).
Proof.
  intros He w. exists [e]. unfold call. destruct (f (app w)) as [s1 out].
  simpl. split; [done|]. by constructor.
Qed.

Lemma appends_bind P {A B} (m : M S A) (k : A -> M S B) :
  appends P m -> (forall a, appends P (k a)) -> appends P (bind m k).
Proof.
  intros Hm Hk w. unfold bind. destruct (Hm w) as (evs & Ht & Hevs).
  destruct (m w) as [w1 [a|r]]; simpl in *.
  - destruct (Hk a w1) as (evs' & Ht' & Hevs'). exists (evs ++ evs').
    rewrite Ht', Ht, app_assoc. split; [done|]. by apply Forall_app.
  - by exists evs.
Qed.

Lemma appends_recovering P {A} (zero : A) f (body : M S A) :
  appends P body -> (forall r, appends P (f r)) ->
  appends P (recovering zero f body).
Proof.
  intros Hm Hf w. unfold recovering. destruct (Hm w) as (evs & Ht & Hevs).
  destruct (body w) as [w1 [a|r]]; simpl in *; [by exists evs|].
  destruct (Hf r w1) as (evs' & Ht' & Hevs').
  exists (evs ++ evs'). split; [|by apply Forall_app].
  destruct (f r w1) as [w2 [[]|r']]; simpl in *; by rewrite Ht', Ht, app_assoc.
Qed.

Lemma appends_index P l i : appends P (index (S:=S) l i).
Proof.
  unfold index. destruct (l !! i); [apply appends_ret|].
  intros w. exists []. simpl. by rewrite app_nil_r.
Qed.

(** The events of a message dispatch: no callback handler call and no API
    request. *)
Definition message_event (e : Event S) : Prop :=
  match e with
  | EvCallback _ _ | EvAPI _ _ _ => False
  | _ => True
  end.

Ltac appends_step :=
  first
    [ apply appends_ret
    | apply appends_log; exact I
    | apply appends_call; exact I
    | apply appends_index
    | apply appends_bind; [|intros ?]
    | apply appends_recovering; [|intros ?]
    | match goal with
      | |- appends _ (match ?x with _ => _ end) => destruct x
      | |- appends _ (if ?x then _ else _) => destruct x
      end ].

Lemma safeExecute_message_events b ctx h :
  appends message_event (safeExecute b ctx h).
Proof. unfold safeExecute. repeat appends_step. Qed.

Lemma handleMessageUpdate_message_events b message :
  appends message_event (handleMessageUpdate b message).
Proof.
  unfold handleMessageUpdate, dispatchCommand, dispatchContent.
  destruct message as [msg|]; [|apply appends_ret].
  apply appends_recovering; [|intros r; apply appends_log; exact I].
  repeat first [apply safeExecute_message_events | appends_step].
Qed.

Lemma message_events_no_callback (evs : list (Event S)) :
  Forall message_event evs -> callback_calls evs = [] /\ api_calls evs = [].
Proof.
  induction 1 as [|e evs He _ [IH1 IH2]]; [done|].
  destruct e; simpl in *; try done.
Qed.

(** X2.  [HandleWebhook] answers a request whose method is not POST with
    405, and a request whose body cannot be read or decoded with 400; in
    the three cases it writes that one status and dispatches nothing: no
    handler, callback handler or reporter runs and the outside state is as
    before. *)
Theorem webhook_rejects_before_dispatch b iter req w :
  let res := HandleWebhook unmarshal b iter req w in
  (Method req <> MethodPost ->
   snd res = Ret {| written := [HttpError "Only POST requests are allowed" 405];
                    bodyClosed := false |}) /\
  (forall err, Method req = MethodPost -> ReadAll req = inl err ->
   snd res = Ret {| written := [HttpError "Failed to read request body" 400];
                    bodyClosed := false |}) /\
  (forall body err, Method req = MethodPost -> ReadAll req = inr body ->
   unmarshal body = inl err ->
   snd res = Ret {| written := [HttpError "Failed to decode update" 400];
                    bodyClosed := true |}) /\
  (Method req <> MethodPost \/ (exists err, ReadAll req = inl err) \/
   (exists body err, ReadAll req = inr body /\ unmarshal body = inl err) ->
   app (fst res) = app w /\
   handler_calls (trace (fst res)) = handler_calls (trace w) /\
   callback_calls (trace (fst res)) = callback_calls (trace w) /\
   reports (trace (fst res)) = reports (trace w)).
Proof.
  intros res. subst res. unfold HandleWebhook.
  destruct (String.eqb (Method req) MethodPost) eqn:Hm; simpl.
  - apply String.eqb_eq in Hm. split; [done|].
    destruct (ReadAll req) as [err|body] eqn:Hread.
    + split; [by intros|]. split; [by intros|]. intros _.
      unfold bind, log, emit, ret. simpl. repeat split; by traces.
    + split; [by intros|]. destruct (unmarshal body) as [err|update] eqn:Hdec.
      * split; [by intros ? ? _ [= <-] _|]. intros _.
        unfold bind, log, emit, ret. simpl. repeat split; by traces.
      * split; [intros ? ? _ [= <-]; by rewrite Hdec|].
        intros [?|[[? [=]]|(? & ? & [= <-] & Hd)]]; [done|].
        by rewrite Hdec in Hd.
  - apply String.eqb_neq in Hm. split; [done|].
    split; [by intros|]. split; [by intros|]. intros _.
    unfold bind, log, emit, ret. simpl. repeat split; by traces.
Qed.

(** X3.  For a decoded update that carries a message, [HandleWebhook]
    runs the message dispatch and nothing else: the callback query of the
    update, if there is one, is not looked at; an error of the dispatch is
    logged, and the status 200 is written whether the dispatch returned an
    error or not. *)
Theorem webhook_message_update b iter req w body update message :
  Method req = MethodPost ->
  ReadAll req = inr body ->
  unmarshal body = inr update ->
  UpdMessage update = Some message ->
  let res := HandleWebhook unmarshal b iter req w in
  let disp := handleMessageUpdate b (Some message) w in
  snd res = Ret {| written := [WriteHeader 200]; bodyClosed := true |} /\
  fst res = match snd disp with
            | Ret (Some err) =>
                extend (fst disp)
                  [EvLog LError "Error handling message update: %v" [LErr err]]
            | _ => fst disp
            end /\
  callback_calls (trace (fst res)) = callback_calls (trace w).
Proof.
  intros Hm Hread Hdec Hmsg res disp.
  assert (snd res = Ret {| written := [WriteHeader 200]; bodyClosed := true |} /\
          fst res = match snd disp with
                    | Ret (Some err) =>
                        extend (fst disp)
                          [EvLog LError "Error handling message update: %v" [LErr err]]
                    | _ => fst disp
                    end) as [Hres Hw].
  { subst res disp. unfold HandleWebhook. rewrite Hm, Hread, Hdec, Hmsg.
    destruct (handleMessageUpdate_returns b (Some message) w) as [v Hv].
    remember (handleMessageUpdate b (Some message)) as d eqn:Hd.
    simpl. unfold recovering, bind.
    destruct (d w) as [w1 [[e|]|r]]; simpl in *; try done. }
  split; [done|]. split; [done|]. rewrite Hw. subst disp.
  destruct (handleMessageUpdate_message_events b (Some message) w)
    as (evs & Ht & Hevs).
  apply message_events_no_callback in Hevs as [Hcb _].
  assert (callback_calls (trace (fst (handleMessageUpdate b (Some message) w)))
          = callback_calls (trace w)) as Hquiet.
  { rewrite Ht. unfold callback_calls in *. by rewrite omap_app, Hcb, app_nil_r. }
  destruct (handleMessageUpdate b (Some message) w) as [w1 [[e|]|r]];
    simpl in *; try done.
  unfold callback_calls in *. rewrite omap_app. simpl. by rewrite app_nil_r.
Qed.

(** X4.  For a decoded update with a callback query and no message, whose
    data is a registered key: when the handler returns, 200 is written and
    a returned error is logged; when the handler panics, the panic is
    recovered and logged and no status is written.  The fallback reporter
    runs in neither case. *)
Theorem webhook_callback_update b iter req w body update cb h s1 out :
  Method req = MethodPost ->
  ReadAll req = inr body ->
  unmarshal body = inr update ->
  UpdMessage update = None ->
  UpdCallbackQuery update = Some cb ->
  map_get (callbackHandlers b) (models.Data cb) = Some h ->
  h (callback_context cb) (app w) = (s1, out) ->
  let res := HandleWebhook unmarshal b iter req w in
  snd res = Ret {| written := match out with
                              | Returned _ => [WriteHeader 200]
                              | Panicked _ => []
                              end;
                   bodyClosed := true |} /\
  app (fst res) = s1 /\
  reports (trace (fst res)) = reports (trace w) /\
  trace (fst res)
  = trace w ++ [EvLog Debug "callback handler called" [];
                EvCallback h (callback_context cb)] ++
    match out with
    | Returned (Some err) =>
        [EvLog LError "error in calling handler %w: " [LErr err];
         EvLog LError "Error handling callback query: %v" [LErr err]]
    | Returned None => []
    | Panicked r => [EvLog LError "Panic recovered in update handler: %v" [LFault r]]
    end.
Proof.
  intros Hm Hread Hdec Hmsg Hcb Hreg Hh res. subst res.
  unfold HandleWebhook. rewrite Hm, Hread, Hdec, Hmsg, Hcb. simpl.
  unfold handleCallbackQuery. fold (callback_context cb). rewrite Hreg.
  unfold recovering, bind, log, emit, call, ret. simpl. rewrite Hh.
  destruct out as [[e|]|r]; simpl; repeat split; traces;
    rewrite <- ?app_assoc; done.
Qed.

(** X5.  [HandleWebhook] always returns: no panic of a handler, of a
    callback handler or of the reporter leaves it; and it writes at most
    one status. *)
Theorem webhook_always_returns b iter req w :
  exists resp,
    snd (HandleWebhook unmarshal b iter req w) = Ret resp /\
    (length (written resp) <= 1)%nat.
Proof.
  unfold HandleWebhook.
  destruct (negb (String.eqb (Method req) MethodPost)).
  { eexists. split; [done|]. simpl. lia. }
  destruct (ReadAll req) as [err|body].
  { eexists. split; [done|]. simpl. lia. }
  destruct (unmarshal body) as [err|update].
  { eexists. split; [done|]. simpl. lia. }
  unfold recovering.
  match goal with |- context [match ?body w with _ => _ end] =>
    destruct (body w) as [w1 [resp|r]] eqn:Hbody end; simpl.
  - exists resp. split; [done|].
    revert Hbody. unfold bind.
    match goal with |- context [match ?m w with _ => _ end] =>
      destruct (m w) as [w2 [[]|r]] end; [|done].
    unfold ret. intros [= _ <-]. simpl. lia.
  - eexists. split; [done|]. simpl. lia.
Qed.

End WebhookFacts.

(** ** Commands in general *)

Section CommandFacts.

Context {S : Type}.
Implicit Types (b : Bot S) (w : World S) (h : Handler S) (msg : models.Message).

Lemma Split_head s sep :
  exists pieces, strings.Split s sep = before sep s :: pieces.
Proof.
  induction s as [|c s [pieces IH]]; simpl; [by exists []|].
  destruct (Ascii.eqb c sep); [by eexists|]. rewrite IH. by eexists.
Qed.

Lemma before_before s : before "/" (before " " s) = command_name s.
Proof.
  induction s as [|c s IH]; simpl; [done|].
  destruct (Ascii.eqb c " ") eqn:Hsp; simpl.
  - by rewrite orb_true_r.
  - rewrite orb_false_r. destruct (Ascii.eqb c "/"); [done|]. by rewrite IH.
Qed.

Lemma command_pieces rest :
  exists part0 rest',
    strings.Split (String "/" rest) " "
      = part0 :: tail (strings.Split (String "/" rest) " ") /\
    strings.Split part0 "/" = EmptyString :: command_name rest :: rest'.
Proof.
  destruct (Split_other_first "/" rest " " eq_refl) as (piece & pieces & Hrest & Hall).
  destruct (Split_head rest " ") as [pieces' Hhead].
  rewrite Hhead in Hrest. injection Hrest as <- <-.
  destruct (Split_head (before " " rest) "/") as [rest' Hname].
  exists (String "/" (before " " rest)), rest'. rewrite Hall. split; [done|].
  by rewrite Split_sep_first, Hname, before_before.
Qed.

(** X6.  For every text that starts with a slash, the command name is
    what stands between that slash and the next slash or space, and the
    arguments are the pieces of the text after its first space, empty
    pieces included.  A handler registered under the name is run once on
    the context with these arguments; without one the unknown-command error
    with that name is returned and neither a handler nor the reporter
    runs. *)
Theorem command_name_and_arguments b msg w rest :
  models.Text msg = String "/" rest ->
  let name := command_name rest in
  let args := tail (strings.Split (models.Text msg) " ") in
  let ctx := match args with
             | [] => base_context msg
             | _ => set_Args args (base_context msg)
             end in
  let res := handleMessageUpdate b (Some msg) w in
  Args ctx = args /\
  match map_get (commandHandler b) name with
  | Some h => handler_calls (trace (fst res)) = handler_calls (trace w) ++ [(h, ctx)]
  | None =>
      snd res = Ret (Some (unknown_command name)) /\
      app (fst res) = app w /\
      handler_calls (trace (fst res)) = handler_calls (trace w) /\
      reports (trace (fst res)) = reports (trace w)
  end.
Proof.
  intros Htext name args ctx res.
  destruct (command_pieces rest) as (part0 & rest' & Hparts & Hcommand).
  rewrite <- Htext in Hparts. fold args in Hparts.
  assert (Args ctx = args) as Hargs by (subst ctx; by destruct args).
  split; [done|].
  subst res. rewrite handleMessageUpdate_command by by rewrite Htext.
  pose proof (dispatchCommand_parsed b (base_context msg) msg w part0 args
                (command_name rest) rest' Hparts Hcommand) as Hrun.
  cbv zeta in Hrun. fold name ctx in Hrun. clearbody ctx name.
  rewrite Hargs in Hrun.
  destruct (map_get (commandHandler b) name) as [h|].
  - rewrite update_recover_handler_calls, Hrun, safeExecute_handler_calls.
    unfold extend. simpl. unfold handler_calls. rewrite !omap_app.
    destruct args; simpl; by rewrite !app_nil_r.
  - rewrite (recovering_ret _ _ _ _ _ _ Hrun). unfold extend. simpl.
    split; [done|]. split; [done|].
    unfold handler_calls, reports. rewrite !omap_app.
    destruct args; simpl; by rewrite !app_nil_r.
Qed.

End CommandFacts.

(** ** Registration and dispatch together *)

Section RegistryFacts.

Context {S : Type}.
Implicit Types (b : Bot S) (w : World S) (h : Handler S) (msg : models.Message).

Lemma safeExecute_same_reporter b b' ctx h :
  errorHandler b = errorHandler b' -> safeExecute b ctx h = safeExecute b' ctx h.
Proof. intros H. unfold safeExecute. by rewrite H. Qed.

Lemma dispatchCommand_same_commands b b' ctx msg :
  commandHandler b = commandHandler b' -> errorHandler b = errorHandler b' ->
  dispatchCommand b ctx msg = dispatchCommand b' ctx msg.
Proof.
  intros Hc He. unfold dispatchCommand, safeExecute. by rewrite Hc, He.
Qed.

Lemma OnMessage_other (messageType key : string) h b :
  messageType <> key ->
  map_get (messageHandlers (OnMessage messageType h b)) key
  = map_get (messageHandlers b) key.
Proof.
  intros Hne. unfold OnMessage. simpl. rewrite lookup_insert_ne by done.
  destruct (messageHandlers b); [done|apply lookup_empty].
Qed.

(** X7.  What a registration leaves alone.  [OnMessage] sets the entry of
    its key, also on a bot whose map has not been made, and changes no
    other entry, no other registry and not the reporter.  [OnCallback] does
    the same on a bot whose map has been made, and panics on one whose map
    has not. *)
Theorem registration_frame b (key other : string) h (c : callbackHandler S) :
  let b1 := OnMessage key h b in
  map_get (messageHandlers b1) key = Some h /\
  (other <> key ->
   map_get (messageHandlers b1) other = map_get (messageHandlers b) other) /\
  commandHandler b1 = commandHandler b /\
  callbackHandlers b1 = callbackHandlers b /\
  errorHandler b1 = errorHandler b /\
  match callbackHandlers b with
  | None => OnCallback key c b = Panicked "assignment to entry in nil map"
  | Some _ =>
      exists b2,
        OnCallback key c b = Returned b2 /\
        map_get (callbackHandlers b2) key = Some c /\
        (other <> key ->
         map_get (callbackHandlers b2) other = map_get (callbackHandlers b) other) /\
        messageHandlers b2 = messageHandlers b /\
        commandHandler b2 = commandHandler b /\
        errorHandler b2 = errorHandler b
  end.
Proof.
  intros b1. subst b1. split; [apply lookup_insert_eq|].
  split; [intros Hne; by apply OnMessage_other|].
  split; [done|]. split; [done|]. split; [done|].
  unfold OnCallback. destruct (callbackHandlers b) as [m|] eqn:Hm; [|done].
  eexists. split; [done|]. simpl. split; [apply lookup_insert_eq|].
  split; [|done]. intros Hne. by apply lookup_insert_ne.
Qed.

(** X8.  A text that starts with a slash never reaches a message handler:
    registering any message handler, the one for [Text] included, leaves
    the dispatch of such a message as it was. *)
Theorem commands_bypass_message_handlers b msg w (messageType : string) h :
  strings.HasPrefix (models.Text msg) "/" = true ->
  handleMessageUpdate (OnMessage messageType h b) (Some msg) w
  = handleMessageUpdate b (Some msg) w.
Proof.
  intros Hcmd. rewrite !handleMessageUpdate_command by done.
  by rewrite (dispatchCommand_same_commands (OnMessage messageType h b) b).
Qed.

(** X9.  A handler registered under a type that is not one of the nine
    tags is never run: the registration leaves the dispatch of every
    message as it was. *)
Theorem unknown_type_never_dispatched b message w (messageType : string) h :
  (forall t, tag_name t <> messageType) ->
  handleMessageUpdate (OnMessage messageType h b) message w
  = handleMessageUpdate b message w.
Proof.
  intros Hnot. destruct message as [msg|]; [|done].
  destruct (strings.HasPrefix (models.Text msg) "/") eqn:Hcmd.
  { rewrite !handleMessageUpdate_command by done.
    by rewrite (dispatchCommand_same_commands (OnMessage messageType h b) b). }
  rewrite !handleMessageUpdate_content by done. apply recovering_at.
  rewrite !dispatchContent_first.
  destruct (populated msg) as [|tag rest]; [done|].
  rewrite OnMessage_other by (intros Heq; by apply (Hnot tag)).
  destruct (map_get (messageHandlers b) (tag_name tag)); [|done].
  by rewrite (safeExecute_same_reporter (OnMessage messageType h b) b).
Qed.

(** X10.  Registration then dispatch.  After [OnMessage] under the tag of
    the first populated field of a message that is not a command, the
    handler just registered is the one that runs, once, on the context with
    that field set.  After a successful [OnCallback] under the data of a
    query, the handler just registered is the one that runs, in every order
    of iteration. *)
Theorem register_then_dispatch b msg w tag rest h
    (c : callbackHandler S) cb iter b' :
  strings.HasPrefix (models.Text msg) "/" = false ->
  populated msg = tag :: rest ->
  OnCallback (models.Data cb) c b = Returned b' ->
  handler_calls (trace (fst (handleMessageUpdate (OnMessage (tag_name tag) h b)
                               (Some msg) w)))
  = handler_calls (trace w) ++ [(h, with_field tag msg (base_context msg))] /\
  callback_calls (trace (fst (handleCallbackQuery b' iter cb w)))
  = callback_calls (trace w) ++ [(c, callback_context cb)].
Proof.
  intros Hcmd Hpop Hreg. split.
  - rewrite handleMessageUpdate_content by done.
    rewrite update_recover_handler_calls, dispatchContent_first, Hpop.
    unfold OnMessage at 1. simpl. rewrite lookup_insert_eq.
    apply safeExecute_handler_calls.
  - unfold OnCallback in Hreg. destruct (callbackHandlers b) as [m|]; [|done].
    injection Hreg as <-. unfold handleCallbackQuery. simpl.
    rewrite lookup_insert_eq.
    apply (run_callback_calls "callback handler called" [] c (callback_context cb) w).
Qed.

End RegistryFacts.

(** ** The guard in the remaining cases *)

Section GuardEdges.

Context {S : Type}.
Implicit Types (b : Bot S) (w : World S) (h : Handler S) (ctx : Context).

(** X11.  With a reporter that returns on every error (or with none), the
    guard returns whatever the handler does: no panic leaves it, it gives
    back what the handler returned (nil after a panic) and the reporter is
    run at most once. *)
Theorem guard_returns_with_total_reporter b ctx h w s1 out :
  (forall eh e s, errorHandler b = Some eh -> exists s', eh ctx e s = (s', Returned tt)) ->
  h ctx (app w) = (s1, out) ->
  let res := safeExecute b ctx h w in
  snd res = Ret (match out with Returned v => v | Panicked _ => None end) /\
  exists rs, reports (trace (fst res)) = reports (trace w) ++ rs /\
             (length rs <= 1)%nat.
Proof.
  intros Htotal Hh. run. rewrite Hh. simpl.
  destruct out as [[e|]|r]; simpl.
  - destruct (IsAPIError e 403); simpl.
    { split; [done|]. exists []. split; [by traces|simpl; lia]. }
    destruct (IsAPIError e 429); simpl.
    { split; [done|]. exists []. split; [by traces|simpl; lia]. }
    destruct (errorHandler b) as [eh|] eqn:Heh; simpl.
    + destruct (Htotal eh e s1 eq_refl) as [s2 ->]. simpl.
      split; [done|]. exists [(eh, ctx, e)]. split; [by traces|simpl; lia].
    + split; [done|]. exists []. split; [by traces|simpl; lia].
  - split; [done|]. exists []. split; [by traces|simpl; lia].
  - destruct (errorHandler b) as [eh|] eqn:Heh; simpl.
    + destruct (Htotal eh (Errorf "handler panic: %v" [FFault r]) s1 eq_refl)
        as [s2 ->]. simpl.
      split; [done|]. eexists [_]. split; [by traces|simpl; lia].
    + split; [done|]. exists []. split; [by traces|simpl; lia].
Qed.

(** X12.  When the reporter itself panics on an error the handler
    returned, the guard runs it a second time, on the synthetic error made
    from that panic; if the second run returns, the guard returns nil and
    the handler's error is lost, and if it panics again that panic leaves
    the guard. *)
Theorem guard_reporter_panics b ctx h w s1 e eh s2 r1 s3 out2 :
  h ctx (app w) = (s1, Returned (Some e)) ->
  IsAPIError e 403 = false -> IsAPIError e 429 = false ->
  errorHandler b = Some eh ->
  eh ctx e s1 = (s2, Panicked r1) ->
  eh ctx (handler_panic r1) s2 = (s3, out2) ->
  let res := safeExecute b ctx h w in
  reports (trace (fst res))
  = reports (trace w) ++ [(eh, ctx, e); (eh, ctx, handler_panic r1)] /\
  handler_calls (trace (fst res)) = handler_calls (trace w) ++ [(h, ctx)] /\
  snd res = match out2 with Returned _ => Ret None | Panicked r2 => Panic r2 end /\
  app (fst res) = s3.
Proof.
  intros Hh H403 H429 Hb Heh1 Heh2. unfold handler_panic in *.
  run. rewrite Hh. simpl. rewrite H403, H429, Hb. simpl. rewrite Heh1. simpl.
  rewrite Heh2. destruct out2 as [[]|r2]; simpl; repeat split; by traces.
Qed.

End GuardEdges.

(** ** Outbound requests with options *)

Section OutboundFacts.

Context {S : Type}.
Implicit Types (b : Bot S) (w : World S) (ctx : Context).
Implicit Types (payload : gmap string Param).

Lemma add_reply_markup_other m payload key :
  key <> "reply_markup" -> add_reply_markup m payload !! key = payload !! key.
Proof.
  intros Hne. unfold add_reply_markup. destruct m; [|done].
  by rewrite lookup_insert_ne.
Qed.

Lemma add_reply_markup_self m payload :
  payload !! "reply_markup" = None ->
  add_reply_markup m payload !! "reply_markup" = PMarkup <$> m.
Proof.
  intros Hnone. unfold add_reply_markup. destruct m; [|done].
  by rewrite lookup_insert_eq.
Qed.

Lemma add_reply_parameters_other rp payload key :
  key <> "reply_parameters" -> add_reply_parameters rp payload !! key = payload !! key.
Proof.
  intros Hne. unfold add_reply_parameters. destruct rp as [rp|]; [|done].
  destruct (negb (Z.eqb (RpMessageId rp) 0)); [|done].
  by rewrite lookup_insert_ne.
Qed.

Lemma add_reply_parameters_self rp payload :
  payload !! "reply_parameters" = None ->
  is_Some (add_reply_parameters rp payload !! "reply_parameters") <->
  exists p, rp = Some p /\ RpMessageId p <> 0.
Proof.
  intros Hnone. unfold add_reply_parameters. destruct rp as [rp|].
  - destruct (Z.eqb (RpMessageId rp) 0) eqn:Hz; simpl.
    + apply Z.eqb_eq in Hz. rewrite Hnone. split; [by intros [? [=]]|].
      intros (p & [= <-] & Hp). by destruct Hp.
    + apply Z.eqb_neq in Hz. rewrite lookup_insert_eq. split; [|by eexists].
      intros _. by exists rp.
  - rewrite Hnone. split; [by intros [? [=]]|]. by intros (p & [=] & _).
Qed.

(** X13.  [SendMessageWithOpts] checks the parse mode before anything is
    sent: a parse mode that is neither empty nor [HTML] nor [MarkdownV2]
    is rejected with the error 400 and no request is made.  Otherwise one
    [sendMessage] request is made, with the chat id and the text of the
    request, the parse mode when it is not empty, the reply markup when
    there is one, and reply parameters exactly when the request has reply
    parameters whose message id is not zero. *)
Theorem send_message_validates_parse_mode b req :
  let mode := SmParseMode req in
  let out := SendMessageWithOpts b (Some req) in
  (mode <> "" -> mode <> "HTML" -> mode <> "MarkdownV2" ->
   out = Returned (Rejected parse_mode_error)) /\
  (mode = "" \/ mode = "HTML" \/ mode = "MarkdownV2" ->
   exists payload,
     out = Returned (ViaBot (token b) "sendMessage" payload) /\
     payload !! "chat_id" = Some (PInt (SmChatId req)) /\
     payload !! "text" = Some (PStr (SmText req)) /\
     payload !! "parse_mode" = (if nonempty mode then Some (PStr mode) else None) /\
     payload !! "reply_markup" = PMarkup <$> SmReplyMarkup req /\
     (is_Some (payload !! "reply_parameters") <->
      exists rp, SmReplyParams req = Some rp /\ RpMessageId rp <> 0)).
Proof.
  intros mode out. subst out. unfold SendMessageWithOpts. fold mode.
  unfold nonempty, ParseModeHTML, ParseModeMarkdown.
  destruct (String.eqb mode "") eqn:He; simpl.
  - apply String.eqb_eq in He. split; [by intros|]. intros _.
    eexists. split; [done|].
    rewrite !add_reply_parameters_other, !add_reply_markup_other by done.
    repeat split; try done; try (by rewrite add_reply_markup_self);
      by apply add_reply_parameters_self; rewrite add_reply_markup_other.
  - apply String.eqb_neq in He.
    destruct (String.eqb mode "HTML") eqn:Hh; simpl.
    + apply String.eqb_eq in Hh. split; [by intros|]. intros _.
      eexists. split; [done|].
      rewrite !add_reply_parameters_other, !add_reply_markup_other by done.
      repeat split; try done; try (by rewrite add_reply_markup_self);
        by apply add_reply_parameters_self; rewrite add_reply_markup_other.
    + apply String.eqb_neq in Hh.
      destruct (String.eqb mode "MarkdownV2") eqn:Hm; simpl.
      * apply String.eqb_eq in Hm. split; [by intros|]. intros _.
        eexists. split; [done|].
        rewrite !add_reply_parameters_other, !add_reply_markup_other by done.
        repeat split; try done; try (by rewrite add_reply_markup_self);
          by apply add_reply_parameters_self; rewrite add_reply_markup_other.
      * apply String.eqb_neq in Hm. split; [done|]. by intros [?|[?|?]].
Qed.

Lemma ReplyWithOpts_chat_text ctx req :
  exists payload,
    ReplyWithOpts ctx (Some req) = Returned (ViaContext "sendMessage" payload) /\
    payload !! "chat_id" = Some (PInt (ChatID ctx)) /\
    payload !! "text" = Some (PStr (SmText req)).
Proof.
  unfold ReplyWithOpts. eexists. split; [done|].
  destruct (SmReplyParams req) as [rp|];
    [destruct (negb (Z.eqb (RpMessageId rp) 0))|];
    rewrite ?lookup_insert_ne, !add_reply_markup_other by done;
    unfold set_if; destruct (_ || _); by simplify_map_eq.
Qed.

(** X14.  [Context.ReplyWithOpts] never rejects a request and takes its
    targets from the context: the chat id sent is the one of the context
    whatever the request says; a parse mode other than [HTML] and
    [MarkdownV2] is left out, not refused; and the reply parameters, when
    the request has some with a message id that is not zero, hold the
    message id of the context (and its chat id when the request names a
    chat), not the ids of the request. *)
Theorem reply_with_opts_uses_context ctx req :
  let mode := SmParseMode req in
  exists payload,
    ReplyWithOpts ctx (Some req) = Returned (ViaContext "sendMessage" payload) /\
    payload !! "chat_id" = Some (PInt (ChatID ctx)) /\
    payload !! "text" = Some (PStr (SmText req)) /\
    payload !! "parse_mode"
      = (if String.eqb mode "HTML" || String.eqb mode "MarkdownV2"
         then Some (PStr mode) else None) /\
    (forall rp, SmReplyParams req = Some rp -> RpMessageId rp <> 0 ->
       exists m,
         payload !! "reply_parameters" = Some (PObj m) /\
         m !! "message_id" = Some (PInt (CtxMessageId ctx)) /\
         m !! "chat_id" = (if Z.eqb (RpChatId rp) 0 then None
                           else Some (PInt (ChatID ctx)))) /\
    (forall chat,
       ReplyWithOpts ctx
         (Some {| SmChatId := chat; SmText := SmText req;
                  SmParseMode := SmParseMode req;
                  SmReplyMarkup := SmReplyMarkup req;
                  SmReplyParams := SmReplyParams req |})
       = ReplyWithOpts ctx (Some req)).
Proof.
  intros mode. unfold ReplyWithOpts. fold mode. unfold HTML, MarkdownV2.
  eexists. split; [done|].
  assert (forall (p : gmap string Param) key,
            key <> "reply_parameters" ->
            match SmReplyParams req with
            | Some rp =>
                if negb (Z.eqb (RpMessageId rp) 0)
                then <["reply_parameters" :=
                         PObj (set_if (negb (Z.eqb (RpChatId rp) 0)) "chat_id"
                                 (PInt (ChatID ctx))
                                 {["message_id" := PInt (CtxMessageId ctx)]})]> p
                else p
            | None => p
            end !! key = p !! key) as Hother.
  { intros p key Hne. destruct (SmReplyParams req) as [rp|]; [|done].
    destruct (negb (Z.eqb (RpMessageId rp) 0)); [|done].
    by rewrite lookup_insert_ne. }
  rewrite !Hother, !add_reply_markup_other by done.
  split; [by unfold set_if; destruct (_ || _); simplify_map_eq|].
  split; [by unfold set_if; destruct (_ || _); simplify_map_eq|].
  split; [by unfold set_if; destruct (_ || _); simplify_map_eq|].
  split; [|done].
  intros rp -> Hrp. apply Z.eqb_neq in Hrp. rewrite Hrp. simpl.
  eexists. split; [apply lookup_insert_eq|].
  unfold set_if. destruct (Z.eqb (RpChatId rp) 0); simpl; by simplify_map_eq.
Qed.

(** X15.  The two ways to answer a callback query build the same payload
    from the same options when the cache time is not negative; with a
    negative cache time the method of the bot sends it and the method of
    the context leaves it out.  The method of the context logs one line
    first. *)
Theorem answer_callback_agreement b (cctx : CallbackContext) opts w :
  let req := {| AcCallbackQueryId := QueryID cctx; AcText := CaText opts;
                AcShowAlert := CaShowAlert opts; AcURL := CaURL opts;
                AcCacheTime := CaCacheTime opts |} in
  exists payload params,
    AnswerCallback cctx (Some opts) w
      = (extend w [EvLog Info "Answering callback query" []],
         Ret (ViaContext "answerCallbackQuery" payload)) /\
    answerCallbackQuery b (Some req)
      = Returned (ViaBot (token b) "answerCallbackQuery" params) /\
    (0 <= CaCacheTime opts -> payload = params) /\
    (CaCacheTime opts < 0 ->
     payload !! "cache_time" = None /\
     params !! "cache_time" = Some (PInt (CaCacheTime opts))).
Proof.
  intros req. unfold AnswerCallback, answerCallbackQuery, bind, log, emit, ret.
  simpl. eexists _, _. split; [done|]. split; [done|]. split.
  - intros Hpos. unfold set_if at 1 5.
    destruct (Z.ltb_spec 0 (CaCacheTime opts)), (Z.eqb_spec (CaCacheTime opts) 0);
      simpl; try done; lia.
  - intros Hneg. unfold set_if at 1 5.
    destruct (Z.ltb_spec 0 (CaCacheTime opts)); [lia|].
    destruct (Z.eqb_spec (CaCacheTime opts) 0); [lia|]. simpl.
    split; [|apply lookup_insert_eq].
    unfold set_if. destruct (nonempty (CaURL opts)), (CaShowAlert opts),
      (nonempty (CaText opts)); by simplify_map_eq.
Qed.

(** X16.  [RestrictChatMember] checks the chat id, then the user id, then
    that some permission is set, and makes no request when a check fails.
    When the checks pass, the request has the four parameters [chat_id],
    [user_id], [use_independent_chat_permissions] and [until_date]: the
    permissions themselves are not sent, so two requests that differ in
    their permissions alone make the same call. *)
Theorem restrict_never_sends_permissions b req :
  let out := RestrictChatMemberCall b (Some req) in
  (RcChatId req = "" -> out = Returned (Rejected (Errorf "chat_id is required" []))) /\
  (RcChatId req <> "" -> RcUserId req = 0 ->
   out = Returned (Rejected (Errorf "user_id is required" []))) /\
  (RcChatId req <> "" -> RcUserId req <> 0 ->
   no_permissions (RcPermissions req) = true ->
   out = Returned (Rejected
           (Errorf "permissions are required to restrict a chat member" []))) /\
  (RcChatId req <> "" -> RcUserId req <> 0 ->
   no_permissions (RcPermissions req) = false ->
   exists payload,
     out = Returned (ViaBot (token b) "restrictChatMember" payload) /\
     dom payload = ({["chat_id"; "user_id"; "use_independent_chat_permissions";
                      "until_date"]} : gset string) /\
     (forall permissions,
        no_permissions permissions = false ->
        RestrictChatMemberCall b
          (Some {| RcChatId := RcChatId req; RcUserId := RcUserId req;
                   RcPermissions := permissions;
                   RcUseIndependentChatPermissions :=
                     RcUseIndependentChatPermissions req;
                   RcUntilDate := RcUntilDate req |}) = out)).
Proof.
  intros out. subst out. unfold RestrictChatMemberCall.
  destruct (String.eqb_spec (RcChatId req) "") as [Hc|Hc].
  { split; [done|]. repeat split; by intros. }
  split; [done|].
  destruct (Z.eqb_spec (RcUserId req) 0) as [Hu|Hu].
  { split; [done|]. repeat split; by intros. }
  split; [done|].
  destruct (no_permissions (RcPermissions req)) eqn:Hp.
  { split; [done|]. by intros. }
  split; [done|]. intros _ _ _. eexists. split; [done|]. split.
  - rewrite !dom_insert_L, dom_singleton_L. set_solver.
  - intros permissions Hperm. simpl.
    destruct (String.eqb_spec (RcChatId req) ""); [done|].
    destruct (Z.eqb_spec (RcUserId req) 0); [done|]. by rewrite Hperm.
Qed.

(** X17.  The plain calls are the calls with options, without options:
    [SendMessage] makes the request of [SendMessageWithOpts] for a request
    with that chat and text and nothing else, and [ForwardMessage] the one
    of [ForwardMessageWithOpts] with both flags off; a flag of a forward
    is in the payload exactly when it is on. *)
Theorem plain_calls_are_calls_without_options b (chat from message : Z)
    (text : string) (silent protect : bool) :
  SendMessageWithOpts b
    (Some {| SmChatId := chat; SmText := text; SmParseMode := "";
             SmReplyMarkup := None; SmReplyParams := None |})
  = Returned (SendMessage b chat text) /\
  ForwardMessageWithOpts b
    (Some {| FwChatId := chat; FwFromChatId := from; FwMessageId := message;
             FwDisableNotification := false; FwProtectContent := false |})
  = Returned (ForwardMessage b chat from message) /\
  exists payload,
    ForwardMessageWithOpts b
      (Some {| FwChatId := chat; FwFromChatId := from; FwMessageId := message;
               FwDisableNotification := silent; FwProtectContent := protect |})
    = Returned (ViaBot (token b) "forwardMessage" payload) /\
    payload !! "disable_notification" = (if silent then Some (PBool true) else None) /\
    payload !! "protect_content" = (if protect then Some (PBool true) else None).
Proof.
  split; [done|]. split; [done|].
  unfold ForwardMessageWithOpts. simpl. eexists. split; [done|].
  unfold set_if. destruct silent, protect; by simplify_map_eq.
Qed.

(** X18.  A reply made through the context that the dispatch hands to a
    message handler goes to the chat of the message, with the text
    unchanged: the three reply functions of the context make a
    [sendMessage] request whose [chat_id] is the chat id of the message and
    whose [text] is the text given. *)
Theorem reply_goes_to_originating_chat (msg : models.Message) tag (text : string)
    (args : list string) buttons req :
  let ctx := set_Args args (with_field tag msg (base_context msg)) in
  let chat := PInt (models.ChatId (models.MChat msg)) in
  (exists payload,
     Reply ctx text = ViaContext "sendMessage" payload /\
     payload !! "chat_id" = Some chat /\ payload !! "text" = Some (PStr text)) /\
  (exists payload,
     ReplyWithOpts ctx (Some req) = Returned (ViaContext "sendMessage" payload) /\
     payload !! "chat_id" = Some chat /\
     payload !! "text" = Some (PStr (SmText req))) /\
  (exists payload,
     ReplyWithInlineKeyboard ctx text buttons = ViaContext "sendMessage" payload /\
     payload !! "chat_id" = Some chat /\ payload !! "text" = Some (PStr text)).
Proof.
  intros ctx chat.
  assert (ChatID ctx = models.ChatId (models.MChat msg)) as Hchat
    by (subst ctx; by destruct tag).
  split; [|split].
  - eexists. split; [done|]. unfold chat. rewrite <- Hchat. by simplify_map_eq.
  - destruct (ReplyWithOpts_chat_text ctx req) as (payload & H1 & H2 & H3).
    exists payload. unfold chat. by rewrite <- Hchat.
  - eexists. split; [done|]. unfold chat. rewrite <- Hchat. by simplify_map_eq.
Qed.

(** X19.  Editing and deleting through the context that the callback
    dispatch makes for a query that carries its message address that
    message: the request holds the chat id and the message id of the
    message of the query.  An edit sends the new text, and a parse mode
    only when it is [HTML] or [MarkdownV2]. *)
Theorem callback_edits_target_the_message (cb : models.CallbackQuery)
    (message : models.Message) (newText : string) (opts : EditMessageOptions) :
  models.CMessage cb = Some message ->
  let cctx := callback_context cb in
  let chat := PInt (models.ChatId (models.MChat message)) in
  let id := PInt (models.MessageId message) in
  (exists payload,
     EditMessage cctx newText (Some opts)
     = Returned (ViaContext "editMessageText" payload) /\
     payload !! "chat_id" = Some chat /\
     payload !! "message_id" = Some id /\
     payload !! "text" = Some (PStr newText) /\
     payload !! "parse_mode"
     = (if String.eqb (EoParseMode opts) "HTML"
           || String.eqb (EoParseMode opts) "MarkdownV2"
        then Some (PStr (EoParseMode opts)) else None)) /\
  EditMessage cctx newText None
  = Returned (ViaContext "editMessageText"
                (<["text" := PStr newText]>
                   (<["message_id" := id]> {["chat_id" := chat]}))) /\
  DeleteMessage cctx
  = Returned (ViaContext "deleteMessage"
                (<["message_id" := id]> {["chat_id" := chat]})).
Proof.
  intros Hmsg cctx chat id. unfold EditMessage, DeleteMessage. simpl.
  rewrite Hmsg. split; [|done]. eexists. split; [done|].
  unfold set_if, HTML, MarkdownV2.
  destruct (EoReplyMarkup opts), (EoDisableWebPagePreview opts),
    (String.eqb (EoParseMode opts) "HTML" || String.eqb (EoParseMode opts) "MarkdownV2");
    by simplify_map_eq.
Qed.

(** X20.  [Alert] answers the callback query of its context with the
    alert flag on: the payload holds the query id, [show_alert] set to true,
    the text unless it is empty, and nothing else. *)
Theorem alert_payload (cctx : CallbackContext) (text : string) w :
  exists payload,
    Alert cctx text w
    = (extend w [EvLog Info "Answering callback query" []],
       Ret (ViaContext "answerCallbackQuery" payload)) /\
    payload !! "callback_query_id" = Some (PStr (QueryID cctx)) /\
    payload !! "show_alert" = Some (PBool true) /\
    payload !! "text" = (if nonempty text then Some (PStr text) else None) /\
    dom payload ⊆ ({["callback_query_id"; "show_alert"; "text"]} : gset string).
Proof.
  unfold Alert, AnswerCallback, bind, log, emit, ret. simpl.
  eexists. split; [done|]. unfold set_if. simpl.
  destruct (nonempty text); simpl.
  - repeat split; try (by simplify_map_eq);
      rewrite !dom_insert_L, dom_singleton_L; intros key;
      rewrite !elem_of_union, !elem_of_singleton; tauto.
  - repeat split; try (by simplify_map_eq);
      rewrite !dom_insert_L, dom_singleton_L; intros key;
      rewrite !elem_of_union, !elem_of_singleton; tauto.
Qed.

End OutboundFacts.

(** ** More worked instances *)

Section MoreInstances.

Import Samples WebSamples.

Lemma callback_router_unguarded_witness :
  let res := handleCallbackQuery crash_shop [] (query "buy") start in
  reports (trace (fst res)) = [] /\ snd res = Panic "sold out".
Proof.
  pose proof (callback_router_unguarded crash_shop [] (query "buy") start)
    as (Hrep & _ & Hrun).
  split; [exact Hrep|].
  exact (proj1 (Hrun (cb_crash "sold out") 0%nat (Panicked "sold out")
                  eq_refl eq_refl)).
Defined.

Lemma webhook_rejects_before_dispatch_witness :
  snd (HandleWebhook decode shop_bot [] get start)
  = Ret {| written := [HttpError "Only POST requests are allowed" 405];
           bodyClosed := false |} /\
  snd (HandleWebhook decode shop_bot [] (post "{") start)
  = Ret {| written := [HttpError "Failed to decode update" 400];
           bodyClosed := true |}.
Proof.
  split.
  - apply (proj1 (webhook_rejects_before_dispatch decode shop_bot [] get start)).
    discriminate.
  - exact (proj1 (proj2 (proj2 (webhook_rejects_before_dispatch decode shop_bot []
                                  (post "{") start)))
             "{" (Errorf "invalid character" []) eq_refl eq_refl eq_refl).
Defined.

Lemma webhook_message_update_witness :
  let res := HandleWebhook decode shop_bot [] (post "message") start in
  snd res = Ret {| written := [WriteHeader 200]; bodyClosed := true |} /\
  callback_calls (trace (fst res)) = [].
Proof.
  pose proof (webhook_message_update decode shop_bot [] (post "message") start
                "message" _ (text_message "/echo hi") eq_refl eq_refl eq_refl eq_refl)
    as (Hres & _ & Hcb).
  split; [exact Hres|exact Hcb].
Defined.

Lemma webhook_callback_update_witness :
  let res := HandleWebhook decode crash_shop [] (post "callback") start in
  snd res = Ret {| written := []; bodyClosed := true |} /\
  reports (trace (fst res)) = [].
Proof.
  pose proof (webhook_callback_update decode crash_shop [] (post "callback") start
                "callback" _ (query "buy") (cb_crash "sold out") 0%nat
                (Panicked "sold out") eq_refl eq_refl eq_refl eq_refl eq_refl
                eq_refl eq_refl) as (Hres & _ & Hrep & _).
  split; [exact Hres|exact Hrep].
Defined.

Lemma command_name_and_arguments_witness :
  let msg := text_message "/echo/loud  hi" in
  handler_calls (trace (fst (handleMessageUpdate echo_bot (Some msg) start)))
  = [(succeed 1, set_Args [""; "hi"] (base_context msg))].
Proof.
  intros msg.
  exact (proj2 (command_name_and_arguments echo_bot msg start "echo/loud  hi"
                  eq_refl)).
Defined.

Lemma registration_frame_witness :
  map_get (messageHandlers (OnMessage "Photo" (succeed 1) fresh)) "Photo"
  = Some (succeed 1) /\
  exists b2, OnCallback "buy" (cb_succeed 1) fresh = Returned b2 /\
             map_get (callbackHandlers b2) "buy" = Some (cb_succeed 1).
Proof.
  pose proof (registration_frame fresh "Photo" "Text" (succeed 1) (cb_succeed 1))
    as (Hm & _).
  split; [exact Hm|].
  pose proof (registration_frame fresh "buy" "Text" (succeed 1) (cb_succeed 1))
    as (_ & _ & _ & _ & _ & b2 & H1 & H2 & _).
  by exists b2.
Defined.

Lemma commands_bypass_message_handlers_witness :
  handleMessageUpdate (OnMessage "Text" (succeed 5) echo_bot)
    (Some (text_message "/echo hi")) start
  = handleMessageUpdate echo_bot (Some (text_message "/echo hi")) start.
Proof.
  exact (commands_bypass_message_handlers echo_bot (text_message "/echo hi") start
           "Text" (succeed 5) eq_refl).
Defined.

Lemma unknown_type_never_dispatched_witness :
  handleMessageUpdate (OnMessage "text" (succeed 5) fresh)
    (Some (text_message "hi")) start
  = handleMessageUpdate fresh (Some (text_message "hi")) start.
Proof.
  apply (unknown_type_never_dispatched fresh (Some (text_message "hi")) start
           "text" (succeed 5)).
  intros t. destruct t; discriminate.
Defined.

Lemma register_then_dispatch_witness :
  handler_calls (trace (fst (handleMessageUpdate (OnMessage "Photo" (succeed 2) fresh)
                               (Some (photo_message "")) start)))
  = [(succeed 2, set_Photo (Some a_photo) (base_context (photo_message "")))] /\
  exists b',
    OnCallback "buy" (cb_succeed 3) shop_bot = Returned b' /\
    callback_calls (trace (fst (handleCallbackQuery b' [] (query "buy") start)))
    = [(cb_succeed 3, callback_context (query "buy"))].
Proof.
  pose proof (register_then_dispatch fresh (photo_message "") start TPhoto []
                (succeed 2) (cb_succeed 3) (query "buy") [] _
                eq_refl eq_refl eq_refl) as [Hm _].
  split; [exact Hm|]. eexists. split; [reflexivity|].
  exact (proj2 (register_then_dispatch shop_bot (photo_message "") start TPhoto []
                  (succeed 2) (cb_succeed 3) (query "buy") [] _
                  eq_refl eq_refl eq_refl)).
Defined.

Lemma guard_returns_with_total_reporter_witness :
  snd (safeExecute fresh a_context (crash "boom") start) = Ret None /\
  snd (safeExecute fresh a_context (fail_with broken) start) = Ret (Some broken).
Proof.
  split.
  - apply (proj1 (guard_returns_with_total_reporter fresh a_context (crash "boom")
                    start 0%nat (Panicked "boom")
                    (fun eh e s H => ex_intro _ (s + 1000)%nat
                       (f_equal (fun o => match o with
                                          | Some eh' => eh' a_context e s
                                          | None => ((s + 1000)%nat, Returned tt)
                                          end) (eq_sym H)))
                    eq_refl)).
  - apply (proj1 (guard_returns_with_total_reporter fresh a_context
                    (fail_with broken) start 0%nat (Returned (Some broken))
                    (fun eh e s H => ex_intro _ (s + 1000)%nat
                       (f_equal (fun o => match o with
                                          | Some eh' => eh' a_context e s
                                          | None => ((s + 1000)%nat, Returned tt)
                                          end) (eq_sym H)))
                    eq_refl)).
Defined.

Lemma guard_reporter_panics_witness :
  let res := safeExecute touchy_bot a_context (fail_with broken) start in
  snd res = Ret None /\
  reports (trace (fst res))
  = [(touchy, a_context, broken); (touchy, a_context, handler_panic "reporter down")].
Proof.
  pose proof (guard_reporter_panics touchy_bot a_context (fail_with broken) start
                0%nat broken touchy 0%nat "reporter down" 1%nat (Returned tt)
                eq_refl eq_refl eq_refl eq_refl eq_refl eq_refl)
    as (Hrep & _ & Hres & _).
  split; [exact Hres|exact Hrep].
Defined.

Lemma send_message_validates_parse_mode_witness :
  SendMessageWithOpts fresh (Some a_request) = Returned (Rejected parse_mode_error).
Proof.
  apply (proj1 (send_message_validates_parse_mode fresh a_request)); discriminate.
Defined.

Lemma reply_with_opts_uses_context_witness :
  exists payload,
    ReplyWithOpts a_context (Some a_request)
    = Returned (ViaContext "sendMessage" payload) /\
    payload !! "chat_id" = Some (PInt 42) /\
    payload !! "parse_mode" = None.
Proof.
  destruct (reply_with_opts_uses_context a_context a_request)
    as (payload & H1 & H2 & _ & H4 & _).
  exists payload. split; [exact H1|]. split; [exact H2|exact H4].
Defined.

Lemma restrict_never_sends_permissions_witness :
  let none := {| CanSendMessages := None; CanSendAudios := None;
                 CanSendDocuments := None; CanSendPhotos := None;
                 CanSendVideos := None; CanSendVideoNotes := None;
                 CanSendVoiceNotes := None; CanSendPolls := None;
                 CanSendOtherMessages := None; CanAddWebPagePreviews := None;
                 CanChangeInfo := None; CanInviteUsers := None;
                 CanPinMessages := None; CanManageTopics := None |} in
  RestrictChatMemberCall fresh
    (Some {| RcChatId := "@room"; RcUserId := 7; RcPermissions := none;
             RcUseIndependentChatPermissions := false; RcUntilDate := 0 |})
  = Returned (Rejected (Errorf "permissions are required to restrict a chat member" [])).
Proof.
  intros none.
  apply (proj1 (proj2 (proj2 (restrict_never_sends_permissions fresh _))));
    [discriminate|discriminate|reflexivity].
Defined.

(** The whole run of two requests, computed. *)
Example webhook_runs :
  HandleWebhook decode echo_bot [] (post "message") start
  = ({| app := 1%nat;
        trace :=
          [EvLog Debug "Received message: %s" [LStr "/echo hi"];
           EvLog Debug "Parsed command: %s" [LStr "echo"];
           EvLog Debug "Arguments: [%s]" [LStr "hi"];
           EvLog Info "Executing command: %s" [LStr "echo"];
           EvHandler (succeed 1)
             (set_Args ["hi"] (base_context (text_message "/echo hi")))] |},
     Ret {| written := [WriteHeader 200]; bodyClosed := true |}) /\
  HandleWebhook decode crash_shop [] (post "callback") start
  = ({| app := 0%nat;
        trace :=
          [EvLog Debug "callback handler called" [];
           EvCallback (cb_crash "sold out") (callback_context (query "buy"));
           EvLog LError "Panic recovered in update handler: %v" [LFault "sold out"]] |},
     Ret {| written := []; bodyClosed := true |}).
Proof. split; vm_compute; reflexivity. Qed.

End MoreInstances.

(** ** Faults of the reporter at the dispatch boundary *)

Section DispatchBoundary.

Context {S : Type}.
Implicit Types (b : Bot S) (w : World S) (h : Handler S) (msg : models.Message).

(** X21.  A panic that leaves the guard stops at [handleMessageUpdate].
    When the handler of a message panics and the reporter, run on the
    synthetic error, panics as well, the dispatch logs the second panic and
    returns nil. *)
Theorem dispatch_recovers_reporter_panic b msg w tag rest h s1 r eh s2 r2 :
  strings.HasPrefix (models.Text msg) "/" = false ->
  populated msg = tag :: rest ->
  map_get (messageHandlers b) (tag_name tag) = Some h ->
  let ctx := with_field tag msg (base_context msg) in
  h ctx (app w) = (s1, Panicked r) ->
  errorHandler b = Some eh ->
  eh ctx (handler_panic r) s1 = (s2, Panicked r2) ->
  handleMessageUpdate b (Some msg) w
  = ({| app := s2;
        trace := trace w ++
          [EvHandler h ctx;
           EvLog LError "Panic in handler execution:" [LFault r];
           EvReport eh ctx (handler_panic r);
           EvLog LError "Panic recovered in handleMessageUpdate: %v" [LFault r2]] |},
     Ret None).
Proof.
  intros Hcmd Hpop Hreg ctx Hh Hb Heh.
  rewrite handleMessageUpdate_content by done.
  unfold recovering at 1. rewrite dispatchContent_first, Hpop, Hreg. fold ctx.
  unfold handler_panic in Heh.
  run. rewrite Hh. simpl. rewrite Hb. simpl. rewrite Heh. simpl.
  by rewrite <- !app_assoc.
Qed.

End DispatchBoundary.

Section LastInstances.

Import Samples WebSamples.

Lemma callback_edits_target_the_message_witness :
  DeleteMessage (callback_context
                   {| models.ID := "q2"; models.CFrom := alice;
                      models.CMessage := Some (text_message "menu");
                      models.Data := "buy" |})
  = Returned (ViaContext "deleteMessage"
                (<["message_id" := PInt 1]> {["chat_id" := PInt 42]})).
Proof.
  exact (proj2 (proj2 (callback_edits_target_the_message
                         {| models.ID := "q2"; models.CFrom := alice;
                            models.CMessage := Some (text_message "menu");
                            models.Data := "buy" |}
                         (text_message "menu") ""
                         {| EoParseMode := ""; EoDisableWebPagePreview := false;
                            EoReplyMarkup := None |} eq_refl))).
Defined.

Lemma dispatch_recovers_reporter_panic_witness :
  snd (handleMessageUpdate
         (OnMessage "Text" (crash "boom")
            (NewBot "token" "https://example.org/hook"
               (fun _ _ s => (s, Panicked "reporter down"))))
         (Some (text_message "hi")) start)
  = Ret None.
Proof.
  exact (f_equal snd
           (dispatch_recovers_reporter_panic
              (OnMessage "Text" (crash "boom")
                 (NewBot "token" "https://example.org/hook"
                    (fun _ _ s => (s, Panicked "reporter down"))))
              (text_message "hi") start TText [] (crash "boom") 0%nat "boom"
              (fun _ _ s => (s, Panicked "reporter down")) 0%nat "reporter down"
              eq_refl eq_refl eq_refl eq_refl eq_refl eq_refl)).
Defined.

Lemma answer_callback_agreement_witness :
  exists payload params,
    AnswerCallback (callback_context (query "buy"))
      (Some {| CaText := "ok"; CaShowAlert := false; CaURL := ""; CaCacheTime := -1 |})
      start
    = (extend start [EvLog Info "Answering callback query" []],
       Ret (ViaContext "answerCallbackQuery" payload)) /\
    answerCallbackQuery fresh
      (Some {| AcCallbackQueryId := "q1"; AcText := "ok"; AcShowAlert := false;
               AcURL := ""; AcCacheTime := -1 |})
    = Returned (ViaBot "token" "answerCallbackQuery" params) /\
    payload !! "cache_time" = None /\
    params !! "cache_time" = Some (PInt (-1)).
Proof.
  destruct (answer_callback_agreement fresh (callback_context (query "buy"))
              {| CaText := "ok"; CaShowAlert := false; CaURL := "";
                 CaCacheTime := -1 |} start)
    as (payload & params & H1 & H2 & _ & H4).
  exists payload, params. split; [exact H1|]. split; [exact H2|].
  apply H4. reflexivity.
Defined.

End LastInstances.
